(** * Earthquake data pipeline: extract, stage, transform

    A shallow embedding of the three scripts of the pipeline

    - [process_earthquake_data_starter.py]: pull the feed, write the batch file;
    - [load_csv_starter.py]: replace a batch's rows in table [earthquake];
    - [transform_earthquake_starter.py]: rebuild a date window of table
      [raw.stage_earthquake] from table [public.earthquake];

    together with the part of Python, psycopg2 and PostgreSQL they rely on:
    exceptions that propagate, a connection whose work becomes durable only
    at [commit], SQL's three-valued [WHERE], and the text and date functions
    of the [SELECT] list.  The scheduler demo [simple_api_dag_starter.py]
    pulls another feed and is not part of the pipeline. *)

From Stdlib Require Import ZArith List String Ascii Bool Lia DecimalString.
From Stdlib Require Import DecimalPos Permutation.
Import ListNotations.

Set Warnings "-register-all".

Local Open Scope string_scope.
Local Open Scope Z_scope.

(* ================================================================== *)
(** ** Python: exceptions and statements that may raise *)

Module Py.

(** The exceptions the scripts can meet.  The psycopg2 ones are
    [OperationalError] (the round trip to the store failed), [DataError]
    (the store rejected a value: bad COPY data, timestamp out of range) and
    [InFailedSqlTransaction] (a command sent after an error, before the
    transaction was ended). *)
Inductive exn : Type :=
| KeyError (key : string)
| IndexError
| TypeError
| JSONDecodeError
| OverflowError
| FileNotFoundError (path : string)
| ConnectionError
| OperationalError
| DataError (message : string)
| InFailedSqlTransaction.

Inductive result (A : Type) : Type :=
| Ok (a : A)
| Raise (e : exn).
Arguments Ok {A} a.
Arguments Raise {A} e.

(** A statement run on a state of type [S]: it returns or raises, and in
    both cases leaves a state behind (an exception undoes nothing). *)
Definition M (S A : Type) : Type := S -> result A * S.

Definition ret {S A} (a : A) : M S A := fun s => (Ok a, s).

Definition raise {S A} (e : exn) : M S A := fun s => (Raise e, s).

Definition bind {S A B} (m : M S A) (k : A -> M S B) : M S B :=
  fun s =>
    match m s with
    | (Ok a, s') => k a s'
    | (Raise e, s') => (Raise e, s')
    end.

(** An expression that may raise but touches no state. *)
Definition lift {S A} (r : result A) : M S A := fun s => (r, s).

(** [bind] on results alone, for pure expressions. *)
Definition and_then {A B} (r : result A) (k : A -> result B) : result B :=
  match r with
  | Ok a => k a
  | Raise e => Raise e
  end.

(** What [print] wrote: a line of text, or the text followed by the
    message of a caught exception (f"...{e}"). *)
Inductive printed : Type :=
| Line (text : string)
| ErrorLine (text : string) (e : exn).

End Py.

Import Py.

Declare Scope py_scope.
Delimit Scope py_scope with py.
Notation "x <- m ;; k" := (Py.bind m (fun x => k))
  (at level 61, m at next level, right associativity) : py_scope.
Notation "m ;; k" := (Py.bind m (fun _ => k))
  (at level 61, right associativity) : py_scope.
Notation "x <-- r ;; k" := (Py.and_then r (fun x => k))
  (at level 61, r at next level, right associativity) : py_scope.

(* ================================================================== *)
(** ** PostgreSQL: values and the functions the statements call *)

Module Sql.

(** A nullable SQL truth value; [WHERE] keeps a row only on [Some true]. *)
Definition is_true (b : option bool) : bool :=
  match b with
  | Some true => true
  | _ => false
  end.

(** [a = b] on text. *)
Definition eq_text (a b : option string) : option bool :=
  match a, b with
  | Some x, Some y => Some (String.eqb x y)
  | _, _ => None
  end.

(** [x BETWEEN lo AND hi] on integers and dates. *)
Definition between (x lo hi : option Z) : option bool :=
  match x, lo, hi with
  | Some v, Some l, Some h => Some ((l <=? v) && (v <=? h))
  | _, _, _ => None
  end.

(** *** Text functions

    A [text] is a sequence of characters; an element of a [string] stands
    for one character. *)

(** [POSITION(sub IN s)]: the 1-based index of the first occurrence of
    [sub] in [s], and 0 when there is none. *)
Fixpoint position_nat (sub s : string) : nat :=
  if String.prefix sub s then 1%nat
  else match s with
       | EmptyString => 0%nat
       | String _ s' =>
           match position_nat sub s' with
           | O => 0%nat
           | S p => S (S p)
           end
       end.

Definition position (sub s : option string) : option Z :=
  match sub, s with
  | Some u, Some v => Some (Z.of_nat (position_nat u v))
  | _, _ => None
  end.

Fixpoint drop (n : nat) (s : string) : string :=
  match n, s with
  | O, _ => s
  | S n', String _ s' => drop n' s'
  | S _, EmptyString => EmptyString
  end.

(** [SUBSTRING(s FROM start)]: the characters of [s] from the 1-based
    index [start] on; a start before the first character gives all of [s]. *)
Definition substring_from (s : option string) (start : option Z) : option string :=
  match s, start with
  | Some v, Some n => Some (drop (Z.to_nat (n - 1)) v)
  | _, _ => None
  end.

Definition is_space (c : ascii) : bool := Ascii.eqb c " ".

Fixpoint ltrim (s : string) : string :=
  match s with
  | String c s' => if is_space c then ltrim s' else s
  | EmptyString => EmptyString
  end.

Fixpoint rtrim (s : string) : string :=
  match s with
  | EmptyString => EmptyString
  | String c s' =>
      match rtrim s' with
      | EmptyString => if is_space c then EmptyString else String c EmptyString
      | t => String c t
      end
  end.

(** [TRIM(s)], that is [TRIM(BOTH ' ' FROM s)]: the space character is
    removed from both ends. *)
Definition trim (s : option string) : option string :=
  option_map (fun v => rtrim (ltrim v)) s.

(** *** Timestamps and dates *)

(** A [timestamp with time zone] is an instant, here in seconds since
    1970-01-01 00:00:00 UTC (the statements only build whole seconds). *)
Definition timestamptz : Type := Z.

(** A [date] is a day number, counted from 1970-01-01. *)
Definition date : Type := Z.

(** The session's [TimeZone] setting: the offset from UTC, in seconds,
    that is in force at an instant. *)
Definition TimeZone : Type := timestamptz -> Z.

Definition UTC : TimeZone := fun _ => 0.

(** [time / 1000] on [bigint]: the quotient is truncated toward zero. *)
Definition int8div (a b : option Z) : result (option Z) :=
  match a, b with
  | Some x, Some y =>
      if y =? 0 then Raise (DataError "division by zero") else Ok (Some (Z.quot x y))
  | _, _ => Ok None
  end.

Definition SECS_PER_DAY : Z := 86400.
Definition UNIX_EPOCH_JDATE : Z := 2440588.
Definition DATETIME_MIN_JULIAN : Z := 0.
Definition TIMESTAMP_END_JULIAN : Z := 109203528.

(** [to_timestamp(seconds)]: the instant that many seconds after the Unix
    epoch; the store raises outside the range of its timestamps
    (4714 BC to 294276 AD). *)
Definition to_timestamp (seconds : option Z) : result (option timestamptz) :=
  match seconds with
  | None => Ok None
  | Some s =>
      if (s <? SECS_PER_DAY * (DATETIME_MIN_JULIAN - UNIX_EPOCH_JDATE))
         || (SECS_PER_DAY * (TIMESTAMP_END_JULIAN - UNIX_EPOCH_JDATE) <=? s)
      then Raise (DataError "timestamp out of range")
      else Ok (Some s)
  end.

(** [CAST(t AS date)]: the calendar day of the instant on the session's
    clock. *)
Definition date_of (tz : TimeZone) (t : option timestamptz) : option date :=
  option_map (fun s => (s + tz s) / SECS_PER_DAY) t.

(** The proleptic Gregorian calendar: day number of a civil date and
    back (months 1..12, days from 1). *)
Definition days_from_civil (y m d : Z) : date :=
  let y' := if m <=? 2 then y - 1 else y in
  let era := y' / 400 in
  let yoe := y' - era * 400 in
  let mp := if 2 <? m then m - 3 else m + 9 in
  let doy := (153 * mp + 2) / 5 + d - 1 in
  let doe := yoe * 365 + yoe / 4 - yoe / 100 + doy in
  era * 146097 + doe - 719468.

Definition civil_from_days (n : date) : Z * Z * Z :=
  let z := n + 719468 in
  let era := z / 146097 in
  let doe := z - era * 146097 in
  let yoe := (doe - doe / 1460 + doe / 36524 - doe / 146096) / 365 in
  let doy := doe - (365 * yoe + yoe / 4 - yoe / 100) in
  let mp := (5 * doy + 2) / 153 in
  let d := doy - (153 * mp + 2) / 5 + 1 in
  let m := if mp <? 10 then mp + 3 else mp - 9 in
  ((if m <=? 2 then yoe + era * 400 + 1 else yoe + era * 400), m, d).

End Sql.

(* ================================================================== *)
(** ** The store: two tables behind a psycopg2 connection *)

(** A [double precision] value.  The pipeline never computes with these
    values, it only moves them from the feed to the file and from table to
    table, so a value is kept as the literal that denotes it. *)
Inductive float8 : Type :=
| Float8 (literal : string).

Module Raw.

(** Modelled from the spec: the CREATE TABLE statement of [earthquake]
    (read as [public.earthquake] by the transform) is not part of the
    repository; section 6 of the specification gives its columns, in the
    order of the batch file's header.  Every column is nullable. *)
Record row : Type := {
  time : option Z;
  place : option string;
  magnitude : option float8;
  longitude : option float8;
  latitude : option float8;
  depth : option float8;
  filename : option string
}.

End Raw.

Module Fact.

(** Modelled from the spec: the CREATE TABLE statement of
    [raw.stage_earthquake] is not part of the repository; its columns are
    those the INSERT names.  [ts] holds the instant [to_timestamp]
    returns. *)
Record row : Type := {
  ts : option Sql.timestamptz;
  dt : option Sql.date;
  place : option string;
  magnitude : option float8;
  longitude : option float8;
  latitude : option float8;
  depth : option float8
}.

End Fact.

Module Store.

Record Db : Type := {
  earthquake : list Raw.row;
  stage_earthquake : list Fact.row
}.

(** Where the connection's current transaction stands.  psycopg2 opens a
    transaction at the first command; [work] is the database as that
    transaction sees it. *)
Inductive transaction : Type :=
| Idle
| InTransaction (work : Db)
| InError
| Broken.

(** A connection: what is durably in the store, the open transaction, the
    session's time zone, and the failures the environment has in stock for
    the coming round trips (one entry per round trip, [true] for a round
    trip that fails; none scheduled once the list is used up). *)
Record connection : Type := {
  committed : Db;
  status : transaction;
  TimeZone : Sql.TimeZone;
  faults : list bool
}.

(** A SQL statement, run in a session on the database its transaction
    sees. *)
Definition statement : Type := Sql.TimeZone -> Db -> result Db.

Definition connect (store : Db) (tz : Sql.TimeZone) (failures : list bool) : connection :=
  {| committed := store; status := Idle; TimeZone := tz; faults := failures |}.

Definition set_status (c : connection) (t : transaction) : connection :=
  {| committed := committed c; status := t; TimeZone := TimeZone c; faults := faults c |}.

Definition view (c : connection) : Db :=
  match status c with
  | InTransaction work => work
  | _ => committed c
  end.

(** One exchange with the server. *)
Definition round_trip : M connection unit :=
  fun c =>
    match status c, faults c with
    | Broken, _ => (Raise OperationalError, c)
    | _, true :: rest =>
        (Raise OperationalError,
         {| committed := committed c; status := Broken;
            TimeZone := TimeZone c; faults := rest |})
    | _, false :: rest =>
        (Ok tt,
         {| committed := committed c; status := status c;
            TimeZone := TimeZone c; faults := rest |})
    | _, [] => (Ok tt, c)
    end.

(** [conn.cursor()] and [cur.close()] do not talk to the server. *)
Definition cursor : M connection unit := ret tt.
Definition cursor_close : M connection unit := ret tt.

(** [cur.execute(...)] and [cur.copy_expert(...)]: the statement runs in
    the open transaction, or opens one; when it fails the exception
    propagates and the transaction is left in error. *)
Definition execute (stmt : statement) : M connection unit :=
  (round_trip ;;
   fun c =>
     match status c with
     | InError => (Raise InFailedSqlTransaction, c)
     | _ =>
         match stmt (TimeZone c) (view c) with
         | Ok work => (Ok tt, set_status c (InTransaction work))
         | Raise e => (Raise e, set_status c InError)
         end
     end)%py.

(** [conn.commit()]: the open transaction's work becomes durable; a
    transaction in error is rolled back instead. *)
Definition commit : M connection unit :=
  (round_trip ;;
   fun c =>
     match status c with
     | InTransaction work =>
         (Ok tt,
          {| committed := work; status := Idle;
             TimeZone := TimeZone c; faults := faults c |})
     | _ => (Ok tt, set_status c Idle)
     end)%py.

(** [conn.close()]: work that was not committed is discarded; what stays
    is the committed database. *)
Definition close (c : connection) : Db := committed c.

End Store.

Import Store.

(* ================================================================== *)
(** ** Batch files *)

Module Csv.

(** A field of a CSV record: [None] for the unquoted empty field (which
    COPY reads as NULL), otherwise its text, quoting undone. *)
Definition field : Type := option string.

Definition record : Type := list field.

(** A delimited file, one record per line; when it is written with a
    header the header is the first record. *)
Definition file : Type := list record.

(** The files on disk, by path. *)
Definition filesystem : Type := string -> option file.

Definition write (fs : filesystem) (path : string) (f : file) : filesystem :=
  fun p => if String.eqb p path then Some f else fs p.

Definition remove (fs : filesystem) (path : string) : filesystem :=
  fun p => if String.eqb p path then None else fs p.

Definition exists_ (fs : filesystem) (path : string) : bool :=
  match fs path with
  | Some _ => true
  | None => false
  end.

(** [open(path, "r")].  The file is taken as the list of its records:
    the translation of line ends that text mode does is not modelled, so a
    text that holds a carriage return is outside the model. *)
Definition open (fs : filesystem) (path : string) : result file :=
  match fs path with
  | Some f => Ok f
  | None => Raise (FileNotFoundError path)
  end.

(** *** Input conversion of COPY *)

Definition is_blank (c : ascii) : bool :=
  let n := N_of_ascii c in
  (N.eqb n 32 || (N.leb 9 n && N.leb n 13))%N%bool.

Fixpoint lstrip (s : string) : string :=
  match s with
  | String c s' => if is_blank c then lstrip s' else s
  | EmptyString => EmptyString
  end.

Fixpoint rstrip (s : string) : string :=
  match s with
  | EmptyString => EmptyString
  | String c s' =>
      match rstrip s' with
      | EmptyString => if is_blank c then EmptyString else String c EmptyString
      | t => String c t
      end
  end.

Definition digit (c : ascii) : option Z :=
  let n := Z.of_N (N_of_ascii c) in
  if (48 <=? n) && (n <=? 57) then Some (n - 48) else None.

Fixpoint digits (acc : Z) (s : string) : option Z :=
  match s with
  | EmptyString => Some acc
  | String c s' =>
      match digit c with
      | Some d => digits (10 * acc + d) s'
      | None => None
      end
  end.

Definition numeral (s : string) : option Z :=
  match s with
  | EmptyString => None
  | _ => digits 0 s
  end.

Definition signed (s : string) : option Z :=
  match s with
  | String "-" r => option_map Z.opp (numeral r)
  | String "+" r => numeral r
  | _ => numeral s
  end.

(** Input of a [bigint]: blanks, an optional sign, decimal digits, blanks;
    the value must fit 64 bits. *)
Definition int8in (s : string) : option Z :=
  match signed (rstrip (lstrip s)) with
  | Some z => if (- 2 ^ 63 <=? z) && (z <? 2 ^ 63) then Some z else None
  | None => None
  end.

(** The digits a text starts with, and what follows them. *)
Fixpoint span_digits (s : string) : nat * string :=
  match s with
  | String c s' =>
      match digit c with
      | Some _ => let '(n, r) := span_digits s' in (S n, r)
      | None => (O, s)
      end
  | EmptyString => (O, EmptyString)
  end.

Definition unsign (s : string) : string :=
  match s with
  | String "-" r => r
  | String "+" r => r
  | _ => s
  end.

Definition lower (c : ascii) : ascii :=
  let n := N_of_ascii c in
  if (N.leb 65 n && N.leb n 90)%N then ascii_of_N (n + 32) else c.

Fixpoint lowercase (s : string) : string :=
  match s with
  | String c s' => String (lower c) (lowercase s')
  | EmptyString => EmptyString
  end.

Definition exponent_ok (s : string) : bool :=
  match s with
  | EmptyString => true
  | String c r =>
      if Ascii.eqb (lower c) "e" then
        match span_digits (unsign r) with
        | (S _, EmptyString) => true
        | _ => false
        end
      else false
  end.

Definition decimal_ok (s : string) : bool :=
  let '(n, r) := span_digits s in
  match r with
  | String "." r' =>
      let '(m, r'') := span_digits r' in
      negb (Nat.eqb (n + m) 0) && exponent_ok r''
  | _ => negb (Nat.eqb n 0) && exponent_ok r
  end.

(** Input of a [double precision]: blanks, an optional sign, then a
    decimal literal with optional fraction and exponent, or one of the
    names of the special values. *)
Definition float8in (s : string) : option float8 :=
  let t := rstrip (lstrip s) in
  let u := lowercase (unsign t) in
  if decimal_ok u || String.eqb u "nan" || String.eqb u "infinity" || String.eqb u "inf"
  then Some (Float8 t) else None.

Definition nullable {A} (conv : string -> option A) (what : string) (f : field)
  : result (option A) :=
  match f with
  | None => Ok None
  | Some s =>
      match conv s with
      | Some a => Ok (Some a)
      | None => Raise (DataError what)
      end
  end.

(** One data line of [COPY earthquake FROM STDIN DELIMITER ',' CSV]: as
    many fields as the table has columns, each converted to its column's
    type. *)
Definition copy_record (r : record) : result Raw.row :=
  match r with
  | [t; p; m; lo; la; de; fn] =>
      (time <-- nullable int8in "invalid input syntax for type bigint" t ;;
       magnitude <-- nullable float8in "invalid input syntax for type double precision" m ;;
       longitude <-- nullable float8in "invalid input syntax for type double precision" lo ;;
       latitude <-- nullable float8in "invalid input syntax for type double precision" la ;;
       depth <-- nullable float8in "invalid input syntax for type double precision" de ;;
       Ok {| Raw.time := time; Raw.place := p; Raw.magnitude := magnitude;
             Raw.longitude := longitude; Raw.latitude := latitude;
             Raw.depth := depth; Raw.filename := fn |})%py
  | _ => Raise (DataError "wrong number of columns")
  end.

Fixpoint copy_records (rs : list record) : result (list Raw.row) :=
  match rs with
  | [] => Ok []
  | r :: rest =>
      (row <-- copy_record r ;;
       rows <-- copy_records rest ;;
       Ok (row :: rows))%py
  end.

(** [COPY ... CSV HEADER]: the first line is skipped, whatever it holds.
    The end-of-data line, a backslash and a period alone, at which COPY
    stops reading, is not modelled: a file with such a line is outside the
    model. *)
Definition copy_header (f : file) : result (list Raw.row) :=
  copy_records (tl f).

End Csv.

(* ================================================================== *)
(** ** load_csv_starter.py *)

Module LoadCsv.

(** [DELETE FROM earthquake WHERE filename=%s] *)
Definition delete_query (csv_file_path : string) : statement :=
  fun _ db =>
    Ok {| earthquake :=
            filter (fun r => negb (Sql.is_true
                                     (Sql.eq_text (Raw.filename r) (Some csv_file_path))))
                   (earthquake db);
          stage_earthquake := stage_earthquake db |}.

Definition delete_old_records (csv_file_path : string) : M connection unit :=
  (cursor ;;
   execute (delete_query csv_file_path) ;;
   commit ;;
   cursor_close)%py.

(** [COPY earthquake FROM STDIN DELIMITER ',' CSV HEADER], fed with the
    opened file. *)
Definition sql (f : Csv.file) : statement :=
  fun _ db =>
    (rows <-- Csv.copy_header f ;;
     Ok {| earthquake := (earthquake db ++ rows)%list;
           stage_earthquake := stage_earthquake db |})%py.

Definition load_csv_to_postgres (fs : Csv.filesystem) (csv_file_path : string)
  : M connection unit :=
  (cursor ;;
   f <- lift (Csv.open fs csv_file_path) ;;
   execute (sql f) ;;
   commit ;;
   cursor_close)%py.

(** The body of [main]'s [try]: the staging load of one batch. *)
Definition try_body (fs : Csv.filesystem) (csv_file_path : string) : M connection unit :=
  (delete_old_records csv_file_path ;;
   load_csv_to_postgres fs csv_file_path)%py.

(** The run of a staging load on a fresh connection, as [main] frames it:
    an exception is caught and printed, and the connection is closed on
    every path.  The result is the store as the run leaves it. *)
Definition run (fs : Csv.filesystem) (csv_file_path : string)
           (store : Db) (tz : Sql.TimeZone) (failures : list bool)
  : Db * list printed :=
  let conn := connect store tz failures in
  let '(r, conn') := try_body fs csv_file_path conn in
  (close conn',
   match r with
   | Ok _ => []
   | Raise e => [ErrorLine "An error occurred: " e]
   end).

Definition csv_file_path : string :=
  "C:\Users\iyanu\Downloads\LEARNING DATA ANALYTICS\Data Pipelines Course\earthquake_2026_01_16.csv".

Definition main (fs : Csv.filesystem) (store : Db) (tz : Sql.TimeZone)
           (failures : list bool) : Db * list printed :=
  run fs csv_file_path store tz failures.

End LoadCsv.

(* ================================================================== *)
(** ** transform_earthquake_starter.py *)

Module TransformEarthquake.

(** [DELETE FROM raw.stage_earthquake WHERE dt BETWEEN %s AND %s] *)
Definition delete_query (start_date end_date : Sql.date) : statement :=
  fun _ db =>
    Ok {| earthquake := earthquake db;
          stage_earthquake :=
            filter (fun f => negb (Sql.is_true
                                     (Sql.between (Fact.dt f) (Some start_date)
                                                  (Some end_date))))
                   (stage_earthquake db) |}.

Definition delete_old_records (start_date end_date : Sql.date) : M connection unit :=
  (cursor ;;
   execute (delete_query start_date end_date) ;;
   commit ;;
   cursor_close)%py.

(** [to_timestamp(time / 1000)] *)
Definition event_timestamp (r : Raw.row) : result (option Sql.timestamptz) :=
  (seconds <-- Sql.int8div (Raw.time r) (Some 1000) ;;
   Sql.to_timestamp seconds)%py.

(** [cast(to_timestamp(time / 1000) AS date)] *)
Definition event_date (tz : Sql.TimeZone) (r : Raw.row) : result (option Sql.date) :=
  (t <-- event_timestamp r ;;
   Ok (Sql.date_of tz t))%py.

(** [TRIM(SUBSTRING(place FROM POSITION('of ' IN place) + 3))] *)
Definition clean_place (place : option string) : option string :=
  Sql.trim
    (Sql.substring_from place
       (option_map (fun p => p + 3) (Sql.position (Some "of ") place))).

(** The SELECT list: one row of [raw.stage_earthquake] from one row of
    [public.earthquake]. *)
Definition select_list (tz : Sql.TimeZone) (r : Raw.row) : result Fact.row :=
  (ts <-- event_timestamp r ;;
   dt <-- event_date tz r ;;
   Ok {| Fact.ts := ts;
         Fact.dt := dt;
         Fact.place := clean_place (Raw.place r);
         Fact.magnitude := Raw.magnitude r;
         Fact.longitude := Raw.longitude r;
         Fact.latitude := Raw.latitude r;
         Fact.depth := Raw.depth r |})%py.

(** The WHERE clause. *)
Definition where_clause (tz : Sql.TimeZone) (start_date end_date : Sql.date)
           (r : Raw.row) : result (option bool) :=
  (dt <-- event_date tz r ;;
   Ok (Sql.between dt (Some start_date) (Some end_date)))%py.

(** The SELECT over [public.earthquake]: the rows the WHERE clause keeps,
    in table order; an error on any row fails the whole statement. *)
Fixpoint select (tz : Sql.TimeZone) (start_date end_date : Sql.date)
         (rows : list Raw.row) : result (list Fact.row) :=
  match rows with
  | [] => Ok []
  | r :: rest =>
      (keep <-- where_clause tz start_date end_date r ;;
       here <-- (if Sql.is_true keep
                 then (f <-- select_list tz r ;; Ok [f])
                 else Ok []) ;;
       there <-- select tz start_date end_date rest ;;
       Ok (here ++ there)%list)%py
  end.

(** [INSERT INTO raw.stage_earthquake (...) SELECT ... FROM
    public.earthquake WHERE ...] *)
Definition sql (start_date end_date : Sql.date) : statement :=
  fun tz db =>
    (rows <-- select tz start_date end_date (earthquake db) ;;
     Ok {| earthquake := earthquake db;
           stage_earthquake := (stage_earthquake db ++ rows)%list |})%py.

Definition transform_earthquake (start_date end_date : Sql.date) : M connection unit :=
  (cursor ;;
   execute (sql start_date end_date) ;;
   commit ;;
   cursor_close)%py.

(** The body of [main]'s [try]: the transform of one window. *)
Definition try_body (start_date end_date : Sql.date) : M connection (list printed) :=
  (delete_old_records start_date end_date ;;
   transform_earthquake start_date end_date ;;
   ret [Line "Data loaded successfully"])%py.

(** The run of a window transform on a fresh connection, as [main] frames
    it. *)
Definition run (start_date end_date : Sql.date)
           (store : Db) (tz : Sql.TimeZone) (failures : list bool)
  : Db * list printed :=
  let conn := connect store tz failures in
  let '(r, conn') := try_body start_date end_date conn in
  (close conn',
   match r with
   | Ok out => out
   | Raise e => [ErrorLine "An error occurred: " e]
   end).

Definition start_date : Sql.date := Sql.days_from_civil 2025 12 31.
Definition end_date : Sql.date := Sql.days_from_civil 2026 1 15.

Definition main (store : Db) (tz : Sql.TimeZone) (failures : list bool)
  : Db * list printed :=
  run start_date end_date store tz failures.

End TransformEarthquake.

(* ================================================================== *)
(** ** process_earthquake_data_starter.py *)

(** A value decoded from JSON, as Python holds it: [None], [bool], [int],
    [float], [str], [list] and [dict] (members in document order). *)
Inductive json : Type :=
| JNull
| JBool (b : bool)
| JInt (z : Z)
| JFloat (x : float8)
| JStr (s : string)
| JArr (items : list json)
| JObj (members : list (string * json)).

Module Python.

Definition decimal (z : Z) : string := NilZero.string_of_int (Z.to_int z).

Fixpoint lookup (key : string) (members : list (string * json)) : option json :=
  match members with
  | [] => None
  | (k, v) :: rest => if String.eqb k key then Some v else lookup key rest
  end.

Fixpoint chars (s : string) : list json :=
  match s with
  | EmptyString => []
  | String c s' => JStr (String c EmptyString) :: chars s'
  end.

(** [v[key]] with a [str] key. *)
Definition getitem (v : json) (key : string) : result json :=
  match v with
  | JObj members =>
      match lookup key members with
      | Some x => Ok x
      | None => Raise (KeyError key)
      end
  | _ => Raise TypeError
  end.

(** [v[i]] with a non-negative [int] index. *)
Definition getindex (v : json) (i : nat) : result json :=
  match v with
  | JArr items =>
      match nth_error items i with
      | Some x => Ok x
      | None => Raise IndexError
      end
  | JStr s =>
      match nth_error (chars s) i with
      | Some x => Ok x
      | None => Raise IndexError
      end
  | JObj _ => Raise (KeyError (decimal (Z.of_nat i)))
  | _ => Raise TypeError
  end.

(** The values [for x in v] runs over. *)
Definition iter (v : json) : result (list json) :=
  match v with
  | JArr items => Ok items
  | JStr s => Ok (chars s)
  | JObj members => Ok (map (fun kv => JStr (fst kv)) members)
  | _ => Raise TypeError
  end.

(** *** [repr] and [str] *)

Fixpoint contains_char (c : ascii) (s : string) : bool :=
  match s with
  | EmptyString => false
  | String d s' => Ascii.eqb c d || contains_char c s'
  end.

Definition hex_digit (n : N) : ascii :=
  if (n <? 10)%N then ascii_of_N (48 + n) else ascii_of_N (87 + n).

(** One character inside a string literal delimited by [quote]
    (characters beyond ASCII are taken as printable). *)
Definition repr_char (quote c : ascii) : string :=
  let n := N_of_ascii c in
  if Ascii.eqb c "\" then "\\"
  else if Ascii.eqb c quote then String "\" (String c EmptyString)
  else if N.eqb n 10 then "\n"
  else if N.eqb n 13 then "\r"
  else if N.eqb n 9 then "\t"
  else if (n <? 32)%N || N.eqb n 127
       then String "\" (String "x" (String (hex_digit (n / 16))
                                      (String (hex_digit (n mod 16)) EmptyString)))
  else String c EmptyString.

Fixpoint repr_chars (quote : ascii) (s : string) : string :=
  match s with
  | EmptyString => EmptyString
  | String c s' => repr_char quote c ++ repr_chars quote s'
  end.

Definition double_quote : ascii := ascii_of_N 34.

(** The literal is delimited by single quotes, unless the text holds a
    single quote and no double quote. *)
Definition repr_str (s : string) : string :=
  let quote : ascii :=
    if contains_char "'" s && negb (contains_char double_quote s)
    then double_quote else "'"%char in
  String quote (repr_chars quote s ++ String quote EmptyString).

Fixpoint join (sep : string) (parts : list string) : string :=
  match parts with
  | [] => EmptyString
  | [x] => x
  | x :: rest => x ++ sep ++ join sep rest
  end.

Fixpoint repr (v : json) : string :=
  match v with
  | JNull => "None"
  | JBool true => "True"
  | JBool false => "False"
  | JInt z => decimal z
  | JFloat (Float8 literal) => literal
  | JStr s => repr_str s
  | JArr items => "[" ++ join ", " (map repr items) ++ "]"
  | JObj members =>
      "{" ++ join ", " (map (fun kv => repr_str (fst kv) ++ ": " ++ repr (snd kv)) members)
          ++ "}"
  end.

Definition str (v : json) : string :=
  match v with
  | JStr s => s
  | _ => repr v
  end.

(** *** [datetime] *)

(** The calendar day of a [datetime]; the script uses nothing else of it. *)
Record datetime : Type := {
  year : Z;
  month : Z;
  day : Z
}.

(** [d - timedelta(days=n)]; [datetime] starts at year 1. *)
Definition minus_days (d : datetime) (n : Z) : result datetime :=
  let ordinal := Sql.days_from_civil (year d) (month d) (day d) - n in
  if ordinal <? Sql.days_from_civil 1 1 1 then Raise OverflowError
  else
    let '(y, m, dd) := Sql.civil_from_days ordinal in
    Ok {| year := y; month := m; day := dd |}.

Fixpoint zeros (n : nat) : string :=
  match n with
  | O => EmptyString
  | S n' => String "0" (zeros n')
  end.

(** A non-negative number on at least [width] digits. *)
Definition padded (width : nat) (z : Z) : string :=
  let digits := decimal z in
  zeros (width - String.length digits) ++ digits.

(** [d.strftime("%Y" + sep + "%m" + sep + "%d")], the year on four
    digits. *)
Definition strftime (sep : string) (d : datetime) : string :=
  padded 4 (year d) ++ sep ++ padded 2 (month d) ++ sep ++ padded 2 (day d).

(** *** [requests] *)

(** A response: its status and what [response.json()] decodes from its
    body ([None] when the body is not JSON). *)
Record response : Type := {
  status_code : Z;
  body : option json
}.

Definition response_json (r : response) : result json :=
  match body r with
  | Some v => Ok v
  | None => Raise JSONDecodeError
  end.

(** *** [pandas] *)

Definition dict : Type := list (string * json).

Record DataFrame : Type := {
  columns : list string;
  values : list (list json)
}.

Fixpoint add_keys (seen keys : list string) : list string :=
  match keys with
  | [] => seen
  | k :: rest =>
      if existsb (String.eqb k) seen then add_keys seen rest
      else add_keys (seen ++ [k])%list rest
  end.

(** [pd.DataFrame(records)] from a list of dicts: the columns are the
    keys met, in order of first appearance (none at all for an empty
    list), and a record without a column's key has a missing value
    there. *)
Definition DataFrame_of (records : list dict) : DataFrame :=
  let cols := fold_left (fun seen d => add_keys seen (map fst d)) records [] in
  {| columns := cols;
     values :=
       map (fun d => map (fun c => match lookup c d with
                                   | Some v => v
                                   | None => JNull
                                   end) cols) records |}.

(** The text [to_csv] writes for a cell; a missing value and the empty
    string give the empty field.  (A column's dtype is not represented:
    a cell is written as the text of the value its record holds.) *)
Definition cell (v : json) : Csv.field :=
  match v with
  | JNull => None
  | JStr EmptyString => None
  | JFloat (Float8 literal) =>
      if String.eqb (Csv.lowercase literal) "nan" then None else Some literal
  | _ => Some (str v)
  end.

(** [df.to_csv(path, index=False)]: the header line carries the column
    names, then one line per row. *)
Definition to_csv (df : DataFrame) : Csv.file :=
  map (fun c => match c with
                | EmptyString => None
                | _ => Some c
                end) (columns df)
  :: map (map cell) (values df).

End Python.

Module ProcessEarthquakeData.

Import Python.

(** What the script runs in: the clock, the feed behind the network, the
    disk, and what has been printed. *)
Record world : Type := {
  now : datetime;
  network : string -> result response;
  fs : Csv.filesystem;
  stdout : list printed
}.

Definition datetime_now : M world datetime :=
  fun w => (Ok (now w), w).

Definition requests_get (url : string) : M world response :=
  fun w => (network w url, w).

Definition print (text : string) : M world unit :=
  fun w =>
    (Ok tt,
     {| now := now w; network := network w; fs := fs w;
        stdout := (stdout w ++ [Line text])%list |}).

Definition os_path_exists (path : string) : M world bool :=
  fun w => (Ok (Csv.exists_ (fs w) path), w).

Definition os_remove (path : string) : M world unit :=
  fun w =>
    match fs w path with
    | Some _ =>
        (Ok tt,
         {| now := now w; network := network w; fs := Csv.remove (fs w) path;
            stdout := stdout w |})
    | None => (Raise (FileNotFoundError path), w)
    end.

(** [df.to_csv(path, index=False)] on a disk that takes the write; a write
    that the system refuses is not modelled. *)
Definition write_file (path : string) (f : Csv.file) : M world unit :=
  fun w =>
    (Ok tt,
     {| now := now w; network := network w; fs := Csv.write (fs w) path f;
        stdout := stdout w |}).

(** The dict built for one feature (lines 42 to 52). *)
Definition earthquake_of (filename : string) (feature : json) : result dict :=
  (properties <-- getitem feature "properties" ;;
   geometry <-- getitem feature "geometry" ;;
   time <-- getitem properties "time" ;;
   place <-- getitem properties "place" ;;
   mag <-- getitem properties "mag" ;;
   coordinates0 <-- getitem geometry "coordinates" ;;
   longitude <-- getindex coordinates0 0 ;;
   coordinates1 <-- getitem geometry "coordinates" ;;
   latitude <-- getindex coordinates1 1 ;;
   coordinates2 <-- getitem geometry "coordinates" ;;
   depth <-- getindex coordinates2 2 ;;
   Ok [("time", time); ("place", place); ("magnitude", mag);
       ("longitude", longitude); ("latitude", latitude); ("depth", depth);
       ("file_name", JStr filename)])%py.

(** The loop over the features, appending to [earthquakes]. *)
Fixpoint for_features (filename : string) (features : list json)
         (earthquakes : list dict) : result (list dict) :=
  match features with
  | [] => Ok earthquakes
  | feature :: rest =>
      (earthquake <-- earthquake_of filename feature ;;
       for_features filename rest (earthquakes ++ [earthquake])%list)%py
  end.

Definition query_url (start_time end_time : string) : string :=
  "https://earthquake.usgs.gov/fdsnws/event/1/query?format=geojson&starttime="
    ++ start_time ++ "&endtime=" ++ end_time.

Definition batch_path (date : string) : string :=
  "C:\Users\iyanu\Downloads\LEARNING DATA ANALYTICS\Data Pipelines Course\earthquake_"
    ++ date ++ ".csv".

Definition process_earthquake_data : M world unit :=
  (today_date <- datetime_now ;;
   date_15_days_ago <- lift (minus_days today_date 15) ;;
   let start_time := strftime "-" date_15_days_ago in
   let end_time := strftime "-" today_date in
   let url := query_url start_time end_time in
   response <- requests_get url ;;
   shown <- lift (response_json response) ;;
   print (str shown) ;;
   print (decimal (status_code response)) ;;
   if status_code response =? 200 then
     data <- lift (response_json response) ;;
     features <- lift (getitem data "features") ;;
     let date := strftime "_" today_date in
     let filename := batch_path date in
     items <- lift (iter features) ;;
     earthquakes <- lift (for_features filename items []) ;;
     print (str (JArr (map JObj earthquakes))) ;;
     let df := DataFrame_of earthquakes in
     present <- os_path_exists filename ;;
     (if present : bool
      then os_remove filename ;; print ("File" ++ filename ++ " removed.")
      else ret tt) ;;
     write_file filename (to_csv df) ;;
     print ("File " ++ filename ++ " created and written to.")
   else
     print ("Failed to retrive data: " ++ decimal (status_code response)))%py.

Definition main : M world unit := process_earthquake_data.

End ProcessEarthquakeData.

(* ================================================================== *)
(** ** Vocabulary of the properties *)

(** The four store functions of the two scripts share one shape: open a
    cursor, run one statement, commit, close the cursor. *)
Definition transact (stmt : statement) : M connection unit :=
  (cursor ;; execute stmt ;; commit ;; cursor_close)%py.

(** The token occurs somewhere in the text. *)
Definition occurs (token s : string) : Prop :=
  exists pre rest, s = pre ++ token ++ rest.

(** [pre] is what stands before the first occurrence of the token in [s],
    and [rest] what follows it. *)
Definition first_occurrence (token s pre rest : string) : Prop :=
  s = pre ++ token ++ rest
  /\ forall pre' rest', s = pre' ++ token ++ rest' ->
                        (String.length pre <= String.length pre')%nat.

(** Text without the space characters at its two ends. *)
Definition trimmed (s : string) : string := Sql.rtrim (Sql.ltrim s).

(** The raw rows of a batch key, and the others. *)
Definition has_key (k : string) (r : Raw.row) : bool :=
  Sql.is_true (Sql.eq_text (Raw.filename r) (Some k)).

Definition other_key (k : string) (r : Raw.row) : bool := negb (has_key k r).

Definition count_key (k : string) (rows : list Raw.row) : nat :=
  List.length (filter (has_key k) rows).

(** A date inside the closed window. *)
Definition in_window (s e : Sql.date) (d : option Sql.date) : bool :=
  Sql.is_true (Sql.between d (Some s) (Some e)).

Definition fact_in_window (s e : Sql.date) (f : Fact.row) : bool :=
  in_window s e (Fact.dt f).

Definition count_window (s e : Sql.date) (facts : list Fact.row) : nat :=
  List.length (filter (fact_in_window s e) facts).

(** The seconds since the epoch of a raw row's epoch-millis time, and the
    day they fall on in the session's time zone. *)
Definition epoch_seconds (r : Raw.row) : option Z :=
  option_map (fun t => Z.quot t 1000) (Raw.time r).

Definition derived_date (tz : Sql.TimeZone) (r : Raw.row) : option Sql.date :=
  option_map (fun s => (s + tz s) / 86400) (epoch_seconds r).

Definition raw_in_window (tz : Sql.TimeZone) (s e : Sql.date) (r : Raw.row) : bool :=
  in_window s e (derived_date tz r).

(** The row's time is one the store has a timestamp for. *)
Definition timestamp_ok (r : Raw.row) : Prop :=
  match epoch_seconds r with
  | None => True
  | Some s =>
      Sql.SECS_PER_DAY * (Sql.DATETIME_MIN_JULIAN - Sql.UNIX_EPOCH_JDATE) <= s
      < Sql.SECS_PER_DAY * (Sql.TIMESTAMP_END_JULIAN - Sql.UNIX_EPOCH_JDATE)
  end.

(** The fact row the SELECT list makes of a raw row whose time is in
    range. *)
Definition derived (tz : Sql.TimeZone) (r : Raw.row) : Fact.row :=
  {| Fact.ts := epoch_seconds r;
     Fact.dt := derived_date tz r;
     Fact.place := TransformEarthquake.clean_place (Raw.place r);
     Fact.magnitude := Raw.magnitude r;
     Fact.longitude := Raw.longitude r;
     Fact.latitude := Raw.latitude r;
     Fact.depth := Raw.depth r |}.

(** The store once the delete of a batch key, or of a window, is
    committed. *)
Definition without_batch (k : string) (db : Db) : Db :=
  {| earthquake := filter (other_key k) (earthquake db);
     stage_earthquake := stage_earthquake db |}.

Definition outside_window (s e : Sql.date) (f : Fact.row) : bool :=
  negb (fact_in_window s e f).

Definition without_window (s e : Sql.date) (db : Db) : Db :=
  {| earthquake := earthquake db;
     stage_earthquake := filter (outside_window s e) (stage_earthquake db) |}.

(** The store once the insert that follows is committed too. *)
Definition with_batch (k : string) (rows : list Raw.row) (db : Db) : Db :=
  {| earthquake := (filter (other_key k) (earthquake db) ++ rows)%list;
     stage_earthquake := stage_earthquake db |}.

Definition with_window (tz : Sql.TimeZone) (s e : Sql.date) (db : Db) : Db :=
  {| earthquake := earthquake db;
     stage_earthquake :=
       (filter (outside_window s e) (stage_earthquake db)
        ++ map (derived tz) (filter (raw_in_window tz s e) (earthquake db)))%list |}.

(** The replace would be atomic if a failed insert, coming after a delete
    that went through, left the store as it was before the call. *)
Definition load_is_atomic (fs : Csv.filesystem) (k : string) (db : Db)
           (tz : Sql.TimeZone) (failures : list bool) : Prop :=
  forall c1 e c2,
    LoadCsv.delete_old_records k (connect db tz failures) = (Ok tt, c1) ->
    LoadCsv.load_csv_to_postgres fs k c1 = (Raise e, c2) ->
    fst (LoadCsv.run fs k db tz failures) = db.

Definition transform_is_atomic (s e : Sql.date) (db : Db)
           (tz : Sql.TimeZone) (failures : list bool) : Prop :=
  forall c1 x c2,
    TransformEarthquake.delete_old_records s e (connect db tz failures) = (Ok tt, c1) ->
    TransformEarthquake.transform_earthquake s e c1 = (Raise x, c2) ->
    fst (TransformEarthquake.run s e db tz failures) = db.

(** The feed answers the script's one request with [resp]. *)
Definition answered (w : ProcessEarthquakeData.world) (resp : Python.response) : Prop :=
  exists ago,
    Python.minus_days (ProcessEarthquakeData.now w) 15 = Ok ago
    /\ ProcessEarthquakeData.network w
         (ProcessEarthquakeData.query_url
            (Python.strftime "-" ago)
            (Python.strftime "-" (ProcessEarthquakeData.now w)))
       = Ok resp.

(** The path of the batch file of the run's day. *)
Definition todays_batch (w : ProcessEarthquakeData.world) : string :=
  ProcessEarthquakeData.batch_path (Python.strftime "_" (ProcessEarthquakeData.now w)).

(** A feed item without [mag] among its properties, and one with fewer
    than three coordinates. *)
Definition lacks_mag (feature : json) : Prop :=
  exists members props,
    feature = JObj members
    /\ Python.lookup "properties" members = Some (JObj props)
    /\ Python.lookup "mag" props = None.

Definition short_coordinates (feature : json) : Prop :=
  exists members geometry coordinates,
    feature = JObj members
    /\ Python.lookup "geometry" members = Some (JObj geometry)
    /\ Python.lookup "coordinates" geometry = Some (JArr coordinates)
    /\ (List.length coordinates < 3)%nat.

(** The exceptions reading a feed item can raise. *)
Definition parse_error (e : exn) : Prop :=
  match e with
  | KeyError _ | IndexError | TypeError => True
  | _ => False
  end.

(** The keys of the record dicts, in the order the loop writes them. *)
Definition batch_columns : list string :=
  ["time"; "place"; "magnitude"; "longitude"; "latitude"; "depth"; "file_name"].

(** A record dict as the loop builds it: the seven keys, the last one
    holding the path of the batch file. *)
Definition stamped (filename : string) (d : Python.dict) : Prop :=
  map fst d = batch_columns /\ Python.lookup "file_name" d = Some (JStr filename).

(** A CSV record, and a raw row, that carry the batch key. *)
Definition keyed (k : string) (r : Csv.record) : Prop :=
  nth_error r 6 = Some (Some k).

Definition of_batch (k : string) (r : Raw.row) : Prop :=
  Raw.filename r = Some k.

(** The header line the batch file is meant to start with. *)
Definition batch_header : Csv.record :=
  [Some "time"; Some "place"; Some "magnitude"; Some "longitude";
   Some "latitude"; Some "depth"; Some "file_name"].

(** The fetch would surface an unavailable feed if every answer with a
    status other than 200 made it raise. *)
Definition fails_when_unavailable (w : ProcessEarthquakeData.world) : Prop :=
  forall resp,
    answered w resp ->
    Python.status_code resp <> 200 ->
    exists e, fst (ProcessEarthquakeData.process_earthquake_data w) = Raise e.

(* ================================================================== *)
(** ** Sample data *)

Module Sample.

Definition key : string := "earthquake_2026_01_16.csv".
Definition other : string := "earthquake_2026_01_15.csv".

Definition raw (t : Z) (p k : string) : Raw.row :=
  {| Raw.time := Some t; Raw.place := Some p;
     Raw.magnitude := Some (Float8 "4.5");
     Raw.longitude := Some (Float8 "-122.5");
     Raw.latitude := Some (Float8 "38.1");
     Raw.depth := Some (Float8 "7.0");
     Raw.filename := Some k |}.

Definition example_town : Raw.row :=
  raw 1700000000000 "10km ENE of Example Town" key.

Definition fiji : Raw.row := raw 1700000000000 "Fiji region" key.

Definition yesterday : Raw.row := raw 1600000000000 "12km of Somewhere" other.

Definition fact (t d : Z) (p : string) : Fact.row :=
  {| Fact.ts := Some t; Fact.dt := Some d; Fact.place := Some p;
     Fact.magnitude := Some (Float8 "4.5");
     Fact.longitude := Some (Float8 "-122.5");
     Fact.latitude := Some (Float8 "38.1");
     Fact.depth := Some (Float8 "7.0") |}.

(** A store with one batch of two rows and one row of another batch,
    and the facts of an earlier transform. *)
Definition db : Db :=
  {| earthquake := [yesterday; example_town; fiji];
     stage_earthquake :=
       [fact 1600000000 18518 "Somewhere"; fact 1700000000 19675 "Example Town"] |}.

Definition line (t p k : string) : Csv.record :=
  [Some t; Some p; Some "4.5"; Some "-122.5"; Some "38.1"; Some "7.0"; Some k].

Definition batch_file : Csv.file :=
  [batch_header;
   line "1700000000000" "10km ENE of Example Town" key;
   line "1700000360000" "Fiji region" key].

Definition no_files : Csv.filesystem := fun _ => None.

Definition disk : Csv.filesystem := Csv.write no_files key batch_file.

(** 2023-11-01 to 2023-11-30 *)
Definition window_start : Sql.date := Sql.days_from_civil 2023 11 1.
Definition window_end : Sql.date := Sql.days_from_civil 2023 11 30.

Definition feature (properties : list (string * json)) (coordinates : list json) : json :=
  JObj [("type", JStr "Feature");
        ("properties", JObj properties);
        ("geometry", JObj [("type", JStr "Point"); ("coordinates", JArr coordinates)])].

Definition point : list json :=
  [JFloat (Float8 "-122.5"); JFloat (Float8 "38.1"); JFloat (Float8 "7.0")].

Definition complete : json :=
  feature [("mag", JFloat (Float8 "4.5")); ("place", JStr "10km ENE of Example Town");
           ("time", JInt 1700000000000)] point.

Definition without_mag : json :=
  feature [("place", JStr "10km ENE of Example Town"); ("time", JInt 1700000000000)] point.

Definition two_coordinates : json :=
  feature [("mag", JFloat (Float8 "4.5")); ("place", JStr "10km ENE of Example Town");
           ("time", JInt 1700000000000)]
          [JFloat (Float8 "-122.5"); JFloat (Float8 "38.1")].

Definition collection (features : list json) : json :=
  JObj [("type", JStr "FeatureCollection"); ("features", JArr features)].

Definition reply (code : Z) (features : list json) : Python.response :=
  {| Python.status_code := code; Python.body := Some (collection features) |}.

(** The world on 2026-01-16, with nothing on disk, in which the feed
    answers every request with [resp]. *)
Definition world (resp : Python.response) : ProcessEarthquakeData.world :=
  {| ProcessEarthquakeData.now :=
       {| Python.year := 2026; Python.month := 1; Python.day := 16 |};
     ProcessEarthquakeData.network := fun _ => Ok resp;
     ProcessEarthquakeData.fs := no_files;
     ProcessEarthquakeData.stdout := [] |}.

End Sample.

(* ================================================================== *)
(** ** Vocabulary of the further properties *)

(** What the feed says of one event. *)
Record reading : Type := {
  read_time : Z;
  read_place : string;
  read_mag : float8;
  read_longitude : float8;
  read_latitude : float8;
  read_depth : float8
}.

(** A feed item that says [e]: an object with the event's time, place and
    magnitude among its properties and, first among the coordinates of its
    geometry, the event's longitude, latitude and depth. *)
Definition says (e : reading) (feature : json) : Prop :=
  exists members props geometry more,
    feature = JObj members
    /\ Python.lookup "properties" members = Some (JObj props)
    /\ Python.lookup "geometry" members = Some (JObj geometry)
    /\ Python.lookup "time" props = Some (JInt (read_time e))
    /\ Python.lookup "place" props = Some (JStr (read_place e))
    /\ Python.lookup "mag" props = Some (JFloat (read_mag e))
    /\ Python.lookup "coordinates" geometry
       = Some (JArr (JFloat (read_longitude e) :: JFloat (read_latitude e)
                     :: JFloat (read_depth e) :: more)).

(** A float whose literal COPY reads back as it stands, and which is a
    number. *)
Definition plain_float (x : float8) : Prop :=
  match x with
  | Float8 literal =>
      Csv.float8in literal = Some (Float8 literal)
      /\ String.eqb (Csv.lowercase literal) "nan" = false
  end.

(** A character that goes from the feed to the store as it is: an ASCII
    character other than NUL, which the store refuses in a text, and other
    than the carriage return, which [open(path, "r")] hands over as a line
    feed. *)
Definition carried (c : ascii) : bool :=
  let n := N_of_ascii c in
  (N.leb 1 n && N.ltb n 128 && negb (N.eqb n 13))%N%bool.

Fixpoint carried_text (s : string) : bool :=
  match s with
  | EmptyString => true
  | String c s' => carried c && carried_text s'
  end.

(** A reading the batch file carries without loss: a time that fits
    [bigint], a place that is not empty and made of characters that are
    carried as they are, floats as above. *)
Definition plain (e : reading) : Prop :=
  - 2 ^ 63 <= read_time e < 2 ^ 63
  /\ read_place e <> EmptyString
  /\ carried_text (read_place e) = true
  /\ plain_float (read_mag e)
  /\ plain_float (read_longitude e)
  /\ plain_float (read_latitude e)
  /\ plain_float (read_depth e).

(** The raw row of a reading in the batch of path [filename]. *)
Definition raw_of (filename : string) (e : reading) : Raw.row :=
  {| Raw.time := Some (read_time e);
     Raw.place := Some (read_place e);
     Raw.magnitude := Some (read_mag e);
     Raw.longitude := Some (read_longitude e);
     Raw.latitude := Some (read_latitude e);
     Raw.depth := Some (read_depth e);
     Raw.filename := Some filename |}.

(** The record dict the loop builds of a reading. *)
Definition dict_of (filename : string) (e : reading) : Python.dict :=
  [("time", JInt (read_time e)); ("place", JStr (read_place e));
   ("magnitude", JFloat (read_mag e)); ("longitude", JFloat (read_longitude e));
   ("latitude", JFloat (read_latitude e)); ("depth", JFloat (read_depth e));
   ("file_name", JStr filename)].

(** Text with a space at its start, or at its end. *)
Definition starts_with_space (s : string) : Prop :=
  exists rest, s = String " " rest.

Definition ends_with_space (s : string) : Prop :=
  exists front, s = front ++ " ".

(** A run of [n] space characters. *)
Fixpoint spaces (n : nat) : string :=
  match n with
  | O => EmptyString
  | S n' => String " " (spaces n')
  end.

(** [q] is [s] without the space characters at its two ends: [s] is [q]
    between two runs of spaces, and [q] has a space at neither end. *)
Definition space_trimmed (s q : string) : Prop :=
  (exists n m, s = spaces n ++ q ++ spaces m)
  /\ ~ starts_with_space q
  /\ ~ ends_with_space q.

(** Whitespace at large: the space, and the characters from the tab to the
    carriage return. *)
Definition is_whitespace (c : ascii) : bool :=
  let n := N_of_ascii c in
  (N.eqb n 32 || (N.leb 9 n && N.leb n 13))%N%bool.

Fixpoint all_whitespace (s : string) : bool :=
  match s with
  | EmptyString => true
  | String c s' => is_whitespace c && all_whitespace s'
  end.

Definition starts_with_whitespace (s : string) : Prop :=
  exists c rest, s = String c rest /\ is_whitespace c = true.

Definition ends_with_whitespace (s : string) : Prop :=
  exists front c, s = front ++ String c EmptyString /\ is_whitespace c = true.

(** [q] is [s] without the whitespace at its two ends. *)
Definition whitespace_trimmed (s q : string) : Prop :=
  (exists l r, s = l ++ q ++ r /\ all_whitespace l = true /\ all_whitespace r = true)
  /\ ~ starts_with_whitespace q
  /\ ~ ends_with_whitespace q.

(** The place of the fact derived from [r] would be trimmed of whitespace
    if it were what follows the first token without the whitespace at its
    ends. *)
Definition place_is_whitespace_trimmed (tz : Sql.TimeZone) (r : Raw.row) : Prop :=
  forall p f,
    Raw.place r = Some p ->
    occurs "of " p ->
    TransformEarthquake.select_list tz r = Ok f ->
    exists pre rest q,
      first_occurrence "of " p pre rest
      /\ Fact.place f = Some q
      /\ whitespace_trimmed rest q.

(** The example time would be dated on UTC if, in a session on time zone
    [tz], every row of time 1700000000000 got the date 2023-11-14. *)
Definition example_is_dated_on_utc (tz : Sql.TimeZone) : Prop :=
  forall r f,
    Raw.time r = Some 1700000000000 ->
    TransformEarthquake.select_list tz r = Ok f ->
    Fact.dt f = Some (Sql.days_from_civil 2023 11 14).


(** The line that ends the data of a COPY from STDIN: a backslash and a
    period, alone on the line. *)
Definition end_of_data : Csv.record := [Some "\."].

(** A row the deletes cannot reach: no filename, no date. *)
Definition without_filename (r : Raw.row) : Prop := Raw.filename r = None.

Definition without_date (f : Fact.row) : Prop := Fact.dt f = None.

(** What a run of the transform prints when nothing failed. *)
Definition loaded_message : list printed := [Line "Data loaded successfully"].

Module More.

(** A place that ends with a tab. *)
Definition tab : string := String (ascii_of_N 9) EmptyString.

Definition town_tab : Raw.row :=
  Sample.raw 1700000000000 ("1km N of Town" ++ tab) Sample.key.

(** A session two hours east of UTC. *)
Definition two_hours_east : Sql.TimeZone := fun _ => 7200.

Definition reading_example_town : reading :=
  {| read_time := 1700000000000; read_place := "10km ENE of Example Town";
     read_mag := Float8 "4.5"; read_longitude := Float8 "-122.5";
     read_latitude := Float8 "38.1"; read_depth := Float8 "7.0" |}.

Definition reading_fiji : reading :=
  {| read_time := 1700000360000; read_place := "Fiji region";
     read_mag := Float8 "5.1"; read_longitude := Float8 "178.2";
     read_latitude := Float8 "-17.9"; read_depth := Float8 "550.0" |}.

Definition feature_of (e : reading) : json :=
  Sample.feature
    [("mag", JFloat (read_mag e)); ("place", JStr (read_place e));
     ("time", JInt (read_time e))]
    [JFloat (read_longitude e); JFloat (read_latitude e); JFloat (read_depth e)].

(** The world on 2026-01-16 with [disk] for a disk, in which the feed
    answers every request with [resp]. *)
Definition world_on (disk : Csv.filesystem) (resp : Python.response)
  : ProcessEarthquakeData.world :=
  {| ProcessEarthquakeData.now :=
       {| Python.year := 2026; Python.month := 1; Python.day := 16 |};
     ProcessEarthquakeData.network := fun _ => Ok resp;
     ProcessEarthquakeData.fs := disk;
     ProcessEarthquakeData.stdout := [] |}.

(** The path of the batch of 2026-01-16, and a disk that has a file
    there. *)
Definition todays_path : string := ProcessEarthquakeData.batch_path "2026_01_16".

Definition disk_with_batch : Csv.filesystem :=
  Csv.write Sample.disk todays_path Sample.batch_file.

(** A response whose body does not decode, and one whose body is an
    object without features. *)
Definition garbled (code : Z) : Python.response :=
  {| Python.status_code := code; Python.body := None |}.

Definition featureless : Python.response :=
  {| Python.status_code := 200;
     Python.body := Some (JObj [("type", JStr "FeatureCollection")]) |}.

(** A batch file of another key, and a disk with both. *)
Definition other_file : Csv.file :=
  [batch_header; Sample.line "1600000000000" "12km of Somewhere" Sample.other].

Definition two_batches : Csv.filesystem :=
  Csv.write Sample.disk Sample.other other_file.

(** A batch file whose second data line lacks a field. *)
Definition short_line_file : Csv.file :=
  [batch_header;
   Sample.line "1700000000000" "10km ENE of Example Town" Sample.key;
   [Some "1700000360000"; Some "Fiji region"]].

Definition bad_disk : Csv.filesystem := Csv.write Sample.no_files Sample.key short_line_file.

(** A store with a row that has no filename and a fact that has no date. *)
Definition nameless : Raw.row :=
  {| Raw.time := Some 1700000000000; Raw.place := Some "Fiji region";
     Raw.magnitude := None; Raw.longitude := None; Raw.latitude := None;
     Raw.depth := None; Raw.filename := None |}.

Definition dateless : Fact.row :=
  {| Fact.ts := None; Fact.dt := None; Fact.place := Some "Somewhere";
     Fact.magnitude := None; Fact.longitude := None; Fact.latitude := None;
     Fact.depth := None |}.

Definition db_with_nulls : Db :=
  {| earthquake := nameless :: earthquake Sample.db;
     stage_earthquake := dateless :: stage_earthquake Sample.db |}.

(** A store with a raw row whose time is beyond the store's timestamps. *)
Definition far_future : Raw.row := Sample.raw 9300000000000000 "12km of Somewhere" Sample.key.

Definition db_far_future : Db :=
  {| earthquake := Sample.example_town :: far_future :: nil;
     stage_earthquake := stage_earthquake Sample.db |}.

(** 2020-09-01 to 2020-09-30 *)
Definition september_start : Sql.date := Sql.days_from_civil 2020 9 1.
Definition september_end : Sql.date := Sql.days_from_civil 2020 9 30.

End More.

(* ================================================================== *)
(** ** The connection: what one committed statement can do *)

Section Transact.

Variable stmt : statement.

(** On an idle connection, statement and commit either both go through,
    and the store holds the statement's result, or an exception is raised
    and the store holds what it held. *)
Lemma transact_outcome (c : connection) :
  status c = Idle ->
  forall r c', transact stmt c = (r, c') ->
    TimeZone c' = TimeZone c
    /\ ((r = Ok tt /\ status c' = Idle
         /\ stmt (TimeZone c) (committed c) = Ok (committed c'))
        \/ ((exists e, r = Raise e) /\ committed c' = committed c)).
Proof.
  destruct c as [db st tz fl]; cbn. intros Hidle r c'. subst st.
  unfold transact, cursor, cursor_close, execute, commit, round_trip,
    set_status, view, Py.bind, Py.ret; cbn.
  destruct fl as [|[] [|[] rest]]; cbn;
    destruct (stmt tz db) as [work|e] eqn:Hstmt; cbn;
    intros H; inversion H; subst; cbn; split; try reflexivity;
    first [ left; repeat split; reflexivity
          | right; split; [eexists; reflexivity | reflexivity] ].
Qed.

(** With no failure in stock, a statement that evaluates is committed. *)
Lemma transact_reliable (c : connection) (work : Db) :
  status c = Idle ->
  faults c = [] ->
  stmt (TimeZone c) (committed c) = Ok work ->
  transact stmt c
  = (Ok tt, {| committed := work; status := Idle;
               TimeZone := TimeZone c; faults := [] |}).
Proof.
  destruct c as [db st tz fl]; cbn. intros Hidle Hfaults Hstmt. subst st fl.
  unfold transact, cursor, cursor_close, execute, commit, round_trip,
    set_status, view, Py.bind, Py.ret; cbn.
  rewrite Hstmt. reflexivity.
Qed.

End Transact.

(* ================================================================== *)
(** ** Lists of rows *)

Section Rows.

Context {A : Type}.
Variables keep drop_ : A -> bool.
Hypothesis apart : forall a, keep a = negb (drop_ a).

Lemma filter_none (l : list A) :
  Forall (fun a => drop_ a = true) l -> filter keep l = [].
Proof.
  induction 1 as [|a l Ha _ IH]; cbn; [reflexivity|].
  rewrite apart, Ha. exact IH.
Qed.

Lemma filter_all (l : list A) :
  Forall (fun a => drop_ a = true) l -> filter drop_ l = l.
Proof.
  induction 1 as [|a l Ha _ IH]; cbn; [reflexivity|].
  rewrite Ha, IH. reflexivity.
Qed.

Lemma filter_kept_again (l : list A) : filter keep (filter keep l) = filter keep l.
Proof.
  induction l as [|a l IH]; cbn; [reflexivity|].
  destruct (keep a) eqn:Ha; cbn; rewrite ?Ha, IH; reflexivity.
Qed.

Lemma filter_dropped_of_kept (l : list A) : filter drop_ (filter keep l) = [].
Proof.
  induction l as [|a l IH]; cbn; [reflexivity|].
  destruct (keep a) eqn:Ha; cbn; [|exact IH].
  rewrite apart in Ha. apply negb_true_iff in Ha. rewrite Ha. exact IH.
Qed.

(** Replacing twice is replacing once: the rows a replace adds are rows
    the next one drops. *)
Lemma replace_twice (old new : list A) :
  Forall (fun a => drop_ a = true) new ->
  (filter keep (filter keep old ++ new) ++ new = filter keep old ++ new)%list.
Proof.
  intros Hnew.
  rewrite filter_app, filter_kept_again, (filter_none new Hnew), app_nil_r.
  reflexivity.
Qed.

Lemma replace_count (old new : list A) :
  Forall (fun a => drop_ a = true) new ->
  List.length (filter drop_ (filter keep old ++ new)) = List.length new.
Proof.
  intros Hnew.
  rewrite filter_app, filter_dropped_of_kept, (filter_all new Hnew).
  reflexivity.
Qed.

End Rows.

(* ================================================================== *)
(** ** The staging load *)

Lemma load_delete_is_transact (k : string) :
  LoadCsv.delete_old_records k = transact (LoadCsv.delete_query k).
Proof. reflexivity. Qed.

Lemma load_delete_query_eval (k : string) (tz : Sql.TimeZone) (db : Db) :
  LoadCsv.delete_query k tz db = Ok (without_batch k db).
Proof. reflexivity. Qed.

Lemma load_insert_unfold (fs : Csv.filesystem) (k : string) (c : connection) :
  LoadCsv.load_csv_to_postgres fs k c
  = match fs k with
    | Some f => transact (LoadCsv.sql f) c
    | None => (Raise (FileNotFoundError k), c)
    end.
Proof.
  unfold LoadCsv.load_csv_to_postgres, transact, Csv.open, cursor, Py.lift, Py.bind, Py.ret.
  destruct (fs k); reflexivity.
Qed.

(** The delete of a staging load: committed, or the store is as before. *)
Lemma load_delete_outcome (k : string) (c : connection) (r : result unit) (c1 : connection) :
  status c = Idle ->
  LoadCsv.delete_old_records k c = (r, c1) ->
  TimeZone c1 = TimeZone c
  /\ ((r = Ok tt /\ status c1 = Idle /\ committed c1 = without_batch k (committed c))
      \/ ((exists e, r = Raise e) /\ committed c1 = committed c)).
Proof.
  intros Hidle Hrun. rewrite load_delete_is_transact in Hrun.
  destruct (transact_outcome _ c Hidle r c1 Hrun) as [Htz [[Hr [Hst Hq]] | Hfail]].
  - split; [exact Htz|]. left. rewrite load_delete_query_eval in Hq.
    inversion Hq. repeat split; assumption.
  - split; [exact Htz|]. right. exact Hfail.
Qed.

(** The insert of a staging load: the file's rows are appended and
    committed, or the store is as before. *)
Lemma load_insert_outcome (fs : Csv.filesystem) (k : string) (c : connection)
      (r : result unit) (c2 : connection) :
  status c = Idle ->
  LoadCsv.load_csv_to_postgres fs k c = (r, c2) ->
  (r = Ok tt
   /\ exists f rows, fs k = Some f /\ Csv.copy_header f = Ok rows
                     /\ committed c2
                        = {| earthquake := (earthquake (committed c) ++ rows)%list;
                             stage_earthquake := stage_earthquake (committed c) |})
  \/ ((exists e, r = Raise e) /\ committed c2 = committed c).
Proof.
  intros Hidle Hrun. rewrite load_insert_unfold in Hrun.
  destruct (fs k) as [f|] eqn:Hf.
  - destruct (transact_outcome _ c Hidle r c2 Hrun) as [_ [[Hr [_ Hq]] | Hfail]].
    + left. split; [exact Hr|]. unfold LoadCsv.sql in Hq.
      destruct (Csv.copy_header f) as [rows|e] eqn:Hrows; cbn in Hq; [|discriminate].
      exists f, rows. inversion Hq. repeat split; first [reflexivity | assumption].
    + right. exact Hfail.
  - inversion Hrun; subst. right. split; [eexists|]; reflexivity.
Qed.

(** The three ways a staging load can end. *)
Lemma load_run_outcome (fs : Csv.filesystem) (k : string) (db : Db)
      (tz : Sql.TimeZone) (failures : list bool) :
  let after := fst (LoadCsv.run fs k db tz failures) in
  after = db
  \/ after = without_batch k db
  \/ exists f rows, fs k = Some f /\ Csv.copy_header f = Ok rows
                    /\ after = with_batch k rows db.
Proof.
  unfold LoadCsv.run, LoadCsv.try_body, Py.bind.
  destruct (LoadCsv.delete_old_records k (connect db tz failures)) as [r c1] eqn:Hdel.
  destruct (load_delete_outcome k (connect db tz failures) r c1 eq_refl Hdel)
    as [_ [[Hr [Hidle Hc1]] | [[e Hr] Hc1]]]; subst r; cbv beta iota.
  - destruct (LoadCsv.load_csv_to_postgres fs k c1) as [r c2] eqn:Hins.
    destruct (load_insert_outcome fs k c1 r c2 Hidle Hins)
      as [[Hr [f [rows [Hf [Hrows Hc2]]]]] | [[e Hr] Hc2]]; subst r;
      cbv beta iota; cbn [fst]; unfold close.
    + right; right. exists f, rows. repeat split; try assumption.
      rewrite Hc2, Hc1. reflexivity.
    + right; left. rewrite Hc2. exact Hc1.
  - left. exact Hc1.
Qed.

(** A load that meets no failure, of a file that is there and converts. *)
Lemma load_run_reliable (fs : Csv.filesystem) (k : string) (db : Db)
      (tz : Sql.TimeZone) (f : Csv.file) (rows : list Raw.row) :
  fs k = Some f ->
  Csv.copy_header f = Ok rows ->
  LoadCsv.run fs k db tz [] = (with_batch k rows db, []).
Proof.
  intros Hf Hrows.
  unfold LoadCsv.run, LoadCsv.try_body, Py.bind.
  rewrite load_delete_is_transact.
  rewrite (transact_reliable _ (connect db tz []) (without_batch k db)) by reflexivity.
  rewrite load_insert_unfold, Hf.
  rewrite (transact_reliable _ _ (with_batch k rows db)); [reflexivity..|].
  unfold LoadCsv.sql. cbn. rewrite Hrows. reflexivity.
Qed.

Lemma copy_records_length (records : list Csv.record) (rows : list Raw.row) :
  Csv.copy_records records = Ok rows -> List.length rows = List.length records.
Proof.
  revert rows. induction records as [|r rest IH]; cbn; intros rows H.
  - inversion H. reflexivity.
  - destruct (Csv.copy_record r); cbn in H; [|discriminate].
    destruct (Csv.copy_records rest) as [rows'|]; cbn in H; [|discriminate].
    inversion H. cbn. f_equal. apply IH. reflexivity.
Qed.

Lemma has_key_of_filename (k : string) (r : Raw.row) :
  Raw.filename r = Some k -> has_key k r = true.
Proof.
  intros H. unfold has_key. rewrite H. cbn. rewrite String.eqb_refl. reflexivity.
Qed.

Lemma filter_subset {A} (p : A -> bool) (l : list A) (a : A) :
  In a (filter p l) -> In a l.
Proof. intros H. apply filter_In in H. tauto. Qed.

(* ================================================================== *)
(** ** The window transform *)

Lemma event_timestamp_ok (r : Raw.row) :
  timestamp_ok r -> TransformEarthquake.event_timestamp r = Ok (epoch_seconds r).
Proof.
  unfold timestamp_ok, epoch_seconds, TransformEarthquake.event_timestamp, Sql.int8div,
    Sql.to_timestamp.
  destruct (Raw.time r) as [t|]; [|reflexivity].
  cbn [option_map Py.and_then Z.eqb].
  intros [Hlo Hhi].
  apply Z.ltb_ge in Hlo. apply Z.leb_gt in Hhi. rewrite Hlo, Hhi. reflexivity.
Qed.

Lemma event_date_ok (tz : Sql.TimeZone) (r : Raw.row) :
  timestamp_ok r -> TransformEarthquake.event_date tz r = Ok (derived_date tz r).
Proof.
  intros H. unfold TransformEarthquake.event_date. rewrite (event_timestamp_ok r H).
  unfold derived_date, Sql.date_of. cbn. reflexivity.
Qed.

Lemma select_list_ok (tz : Sql.TimeZone) (r : Raw.row) :
  timestamp_ok r -> TransformEarthquake.select_list tz r = Ok (derived tz r).
Proof.
  intros H. unfold TransformEarthquake.select_list.
  rewrite (event_timestamp_ok r H), (event_date_ok tz r H). reflexivity.
Qed.

Lemma where_clause_ok (tz : Sql.TimeZone) (s e : Sql.date) (r : Raw.row) :
  timestamp_ok r ->
  TransformEarthquake.where_clause tz s e r
  = Ok (Sql.between (derived_date tz r) (Some s) (Some e)).
Proof.
  intros H. unfold TransformEarthquake.where_clause. rewrite (event_date_ok tz r H).
  reflexivity.
Qed.

(** When every time is in range the SELECT evaluates, to the derived rows
    of the raw rows whose date is in the window, in table order. *)
Lemma select_ok (tz : Sql.TimeZone) (s e : Sql.date) (rows : list Raw.row) :
  Forall timestamp_ok rows ->
  TransformEarthquake.select tz s e rows
  = Ok (map (derived tz) (filter (raw_in_window tz s e) rows)).
Proof.
  induction 1 as [|r rows Hr _ IH]; [reflexivity|].
  cbn [TransformEarthquake.select filter].
  rewrite (where_clause_ok tz s e r Hr), IH. cbn [Py.and_then].
  unfold raw_in_window, in_window.
  destruct (Sql.is_true (Sql.between (derived_date tz r) (Some s) (Some e))).
  - rewrite (select_list_ok tz r Hr). reflexivity.
  - reflexivity.
Qed.

Lemma transform_delete_is_transact (s e : Sql.date) :
  TransformEarthquake.delete_old_records s e
  = transact (TransformEarthquake.delete_query s e).
Proof. reflexivity. Qed.

Lemma transform_insert_is_transact (s e : Sql.date) :
  TransformEarthquake.transform_earthquake s e = transact (TransformEarthquake.sql s e).
Proof. reflexivity. Qed.

Lemma transform_delete_query_eval (s e : Sql.date) (tz : Sql.TimeZone) (db : Db) :
  TransformEarthquake.delete_query s e tz db = Ok (without_window s e db).
Proof. reflexivity. Qed.

Lemma transform_delete_outcome (s e : Sql.date) (c : connection) (r : result unit)
      (c1 : connection) :
  status c = Idle ->
  TransformEarthquake.delete_old_records s e c = (r, c1) ->
  TimeZone c1 = TimeZone c
  /\ ((r = Ok tt /\ status c1 = Idle /\ committed c1 = without_window s e (committed c))
      \/ ((exists x, r = Raise x) /\ committed c1 = committed c)).
Proof.
  intros Hidle Hrun. rewrite transform_delete_is_transact in Hrun.
  destruct (transact_outcome _ c Hidle r c1 Hrun) as [Htz [[Hr [Hst Hq]] | Hfail]].
  - split; [exact Htz|]. left. rewrite transform_delete_query_eval in Hq.
    inversion Hq. repeat split; assumption.
  - split; [exact Htz|]. right. exact Hfail.
Qed.

Lemma transform_insert_outcome (s e : Sql.date) (c : connection) (r : result unit)
      (c2 : connection) :
  status c = Idle ->
  TransformEarthquake.transform_earthquake s e c = (r, c2) ->
  (r = Ok tt
   /\ exists facts,
       TransformEarthquake.select (TimeZone c) s e (earthquake (committed c)) = Ok facts
       /\ committed c2
          = {| earthquake := earthquake (committed c);
               stage_earthquake := (stage_earthquake (committed c) ++ facts)%list |})
  \/ ((exists x, r = Raise x) /\ committed c2 = committed c).
Proof.
  intros Hidle Hrun. rewrite transform_insert_is_transact in Hrun.
  destruct (transact_outcome _ c Hidle r c2 Hrun) as [_ [[Hr [_ Hq]] | Hfail]].
  - left. split; [exact Hr|]. unfold TransformEarthquake.sql in Hq.
    destruct (TransformEarthquake.select (TimeZone c) s e (earthquake (committed c)))
      as [facts|x]; cbn in Hq; [|discriminate].
    exists facts. inversion Hq. split; reflexivity.
  - right. exact Hfail.
Qed.

(** The three ways a window transform can end. *)
Lemma transform_run_outcome (s e : Sql.date) (db : Db) (tz : Sql.TimeZone)
      (failures : list bool) :
  let after := fst (TransformEarthquake.run s e db tz failures) in
  after = db
  \/ after = without_window s e db
  \/ exists facts,
      TransformEarthquake.select tz s e (earthquake db) = Ok facts
      /\ after = {| earthquake := earthquake db;
                    stage_earthquake :=
                      (filter (outside_window s e) (stage_earthquake db) ++ facts)%list |}.
Proof.
  unfold TransformEarthquake.run, TransformEarthquake.try_body, Py.bind.
  destruct (TransformEarthquake.delete_old_records s e (connect db tz failures))
    as [r c1] eqn:Hdel.
  destruct (transform_delete_outcome s e (connect db tz failures) r c1 eq_refl Hdel)
    as [Htz [[Hr [Hidle Hc1]] | [[x Hr] Hc1]]]; subst r; cbv beta iota.
  - destruct (TransformEarthquake.transform_earthquake s e c1) as [r c2] eqn:Hins.
    destruct (transform_insert_outcome s e c1 r c2 Hidle Hins)
      as [[Hr [facts [Hsel Hc2]]] | [[x Hr] Hc2]]; subst r;
      cbv beta iota; cbn [fst Py.ret]; unfold close.
    + right; right. exists facts. rewrite Htz, Hc1 in Hsel. split; [exact Hsel|].
      rewrite Hc2, Hc1. reflexivity.
    + right; left. rewrite Hc2. exact Hc1.
  - left. exact Hc1.
Qed.

(** A transform that meets no failure, over raw rows whose times are all
    in range. *)
Lemma transform_run_reliable (s e : Sql.date) (db : Db) (tz : Sql.TimeZone) :
  Forall timestamp_ok (earthquake db) ->
  TransformEarthquake.run s e db tz []
  = (with_window tz s e db, [Line "Data loaded successfully"]).
Proof.
  intros Hok.
  unfold TransformEarthquake.run, TransformEarthquake.try_body, Py.bind.
  rewrite transform_delete_is_transact.
  rewrite (transact_reliable _ (connect db tz []) (without_window s e db)) by reflexivity.
  rewrite transform_insert_is_transact.
  rewrite (transact_reliable _ _ (with_window tz s e db)); [reflexivity..|].
  unfold TransformEarthquake.sql. cbn.
  rewrite (select_ok tz s e (earthquake db) Hok). reflexivity.
Qed.

Lemma derived_in_window (tz : Sql.TimeZone) (s e : Sql.date) (rows : list Raw.row) :
  Forall (fun f => fact_in_window s e f = true)
         (map (derived tz) (filter (raw_in_window tz s e) rows)).
Proof.
  apply Forall_forall. intros f Hf. apply in_map_iff in Hf.
  destruct Hf as [r [<- Hr]]. apply filter_In in Hr. exact (proj2 Hr).
Qed.

(* ================================================================== *)
(** ** Text: the position of a token and what follows it *)

Section Token.

Variable token : string.

Lemma prefix_append (rest : string) : String.prefix token (token ++ rest) = true.
Proof.
  induction token as [|a t IH]; cbn.
  - destruct rest; reflexivity.
  - destruct (ascii_dec a a) as [_|Hne]; [exact IH | contradiction].
Qed.

Lemma prefix_split (s : string) :
  String.prefix token s = true -> exists rest, s = token ++ rest.
Proof.
  revert s. induction token as [|a t IH]; intros s H.
  - exists s. reflexivity.
  - destruct s as [|b s']; cbn in H; [discriminate|].
    destruct (ascii_dec a b) as [<-|_]; [|discriminate].
    destruct (IH s' H) as [rest ->]. exists rest. reflexivity.
Qed.

Lemma position_nat_unfold (s : string) :
  Sql.position_nat token s
  = if String.prefix token s then 1%nat
    else match s with
         | EmptyString => 0%nat
         | String _ s' =>
             match Sql.position_nat token s' with
             | O => 0%nat
             | S p => S (S p)
             end
         end.
Proof. destruct s; reflexivity. Qed.

(** A position of 0 means the token is nowhere in the text. *)
Lemma position_zero (s : string) :
  Sql.position_nat token s = 0%nat -> ~ occurs token s.
Proof.
  induction s as [|c s' IH]; rewrite position_nat_unfold;
    destruct (String.prefix token _) eqn:Hp; try discriminate; intros H [pre [rest Heq]].
  - destruct pre as [|d pre']; cbn in Heq.
    + rewrite Heq, prefix_append in Hp. discriminate.
    + discriminate.
  - destruct pre as [|d pre']; cbn in Heq.
    + rewrite Heq, prefix_append in Hp. discriminate.
    + inversion Heq; subst. apply IH.
      * destruct (Sql.position_nat token (pre' ++ token ++ rest)); [reflexivity|discriminate].
      * exists pre', rest. reflexivity.
Qed.

(** A position of [n + 1] means the first occurrence starts after [n]
    characters. *)
Lemma position_succ (s : string) (n : nat) :
  Sql.position_nat token s = S n ->
  exists pre rest, first_occurrence token s pre rest /\ String.length pre = n.
Proof.
  revert n. induction s as [|c s' IH]; intros n; rewrite position_nat_unfold;
    destruct (String.prefix token _) eqn:Hp; intros H; try discriminate.
  - destruct (prefix_split _ Hp) as [rest Hrest]. inversion H; subst n.
    exists EmptyString, rest. repeat split; [exact Hrest | intros; cbn; lia].
  - destruct (prefix_split _ Hp) as [rest Hrest]. inversion H; subst n.
    exists EmptyString, rest. repeat split; [exact Hrest | intros; cbn; lia].
  - destruct (Sql.position_nat token s') as [|p] eqn:Hpos; [discriminate|].
    inversion H; subst n.
    destruct (IH p eq_refl) as [pre [rest [[Heq Hmin] Hlen]]].
    exists (String c pre), rest. repeat split.
    + cbn. rewrite <- Heq. reflexivity.
    + intros pre' rest' Heq'. destruct pre' as [|d pre'']; cbn in Heq'.
      * rewrite Heq', prefix_append in Hp. discriminate.
      * inversion Heq' as [[Hc Hs]]. cbn. apply le_n_S. rewrite Hlen.
        rewrite <- Hlen. apply (Hmin pre'' rest'). exact Hs.
    + cbn. rewrite Hlen. reflexivity.
Qed.

Lemma position_of_occurrence (s : string) :
  occurs token s -> exists n, Sql.position_nat token s = S n.
Proof.
  intros Hocc. destruct (Sql.position_nat token s) as [|n] eqn:Hpos.
  - exfalso. exact (position_zero s Hpos Hocc).
  - exists n. reflexivity.
Qed.

End Token.

Lemma drop_append (pre rest : string) :
  Sql.drop (String.length pre) (pre ++ rest) = rest.
Proof. induction pre as [|c pre IH]; cbn; [destruct rest; reflexivity | exact IH]. Qed.

Lemma drop_drop (n m : nat) (s : string) :
  Sql.drop (n + m) s = Sql.drop m (Sql.drop n s).
Proof.
  revert s. induction n as [|n IH]; intros s; [reflexivity|].
  destruct s as [|c s']; cbn.
  - destruct m; reflexivity.
  - apply IH.
Qed.

(** The place expression, by the position of the token. *)
Lemma clean_place_unfold (p : string) :
  TransformEarthquake.clean_place (Some p)
  = Some (trimmed (Sql.drop (Sql.position_nat "of " p + 2) p)).
Proof.
  unfold TransformEarthquake.clean_place, Sql.position, Sql.substring_from, Sql.trim, trimmed.
  cbn [option_map].
  replace (Z.to_nat (Z.of_nat (Sql.position_nat "of " p) + 3 - 1))
    with (Sql.position_nat "of " p + 2)%nat by lia.
  reflexivity.
Qed.

Lemma clean_place_found (p pre rest : string) :
  first_occurrence "of " p pre rest ->
  TransformEarthquake.clean_place (Some p) = Some (trimmed rest).
Proof.
  intros Hfirst. rewrite clean_place_unfold.
  destruct (position_of_occurrence "of " p) as [n Hn].
  { destruct Hfirst as [Heq _]. exists pre, rest. exact Heq. }
  destruct (position_succ "of " p n Hn) as [pre' [rest' [[Heq' Hmin'] Hlen']]].
  destruct Hfirst as [Heq Hmin].
  assert (Hsame : String.length pre = n).
  { pose proof (Hmin pre' rest' Heq'). pose proof (Hmin' pre rest Heq). lia. }
  rewrite Hn. replace (S n + 2)%nat with (String.length pre + 3)%nat by lia.
  rewrite drop_drop. rewrite Heq at 1. rewrite drop_append. reflexivity.
Qed.

Lemma clean_place_absent (p : string) :
  ~ occurs "of " p ->
  TransformEarthquake.clean_place (Some p) = Some (trimmed (Sql.drop 2 p)).
Proof.
  intros Habsent. rewrite clean_place_unfold.
  destruct (Sql.position_nat "of " p) as [|n] eqn:Hpos; [reflexivity|].
  exfalso. apply Habsent.
  destruct (position_succ "of " p n Hpos) as [pre [rest [[Heq _] _]]].
  exists pre, rest. exact Heq.
Qed.

Lemma select_list_place (tz : Sql.TimeZone) (r : Raw.row) (f : Fact.row) :
  TransformEarthquake.select_list tz r = Ok f ->
  Fact.place f = TransformEarthquake.clean_place (Raw.place r).
Proof.
  unfold TransformEarthquake.select_list.
  destruct (TransformEarthquake.event_timestamp r); cbn; [|discriminate].
  destruct (TransformEarthquake.event_date tz r); cbn; [|discriminate].
  intros H. inversion H. reflexivity.
Qed.

(* ================================================================== *)
(** ** The feed fetch *)

Import Python ProcessEarthquakeData.

Ltac py_step :=
  cbv beta iota zeta
      delta [Py.bind Py.lift Py.ret datetime_now requests_get print
             os_path_exists os_remove write_file];
  cbn [now network fs stdout].

(** Reading a feed item raises nothing but the errors of a lookup. *)
Lemma getitem_error (v : json) (key : string) (e : exn) :
  getitem v key = Raise e -> parse_error e.
Proof.
  destruct v; cbn; try (intros H; inversion H; exact I).
  destruct (lookup key members); intros H; inversion H. exact I.
Qed.

Lemma getindex_error (v : json) (i : nat) (e : exn) :
  getindex v i = Raise e -> parse_error e.
Proof.
  destruct v; cbn; try (intros H; inversion H; exact I).
  - destruct (nth_error (chars s) i); intros H; inversion H. exact I.
  - destruct (nth_error items i); intros H; inversion H. exact I.
Qed.

Lemma earthquake_of_error (filename : string) (feature : json) (e : exn) :
  earthquake_of filename feature = Raise e -> parse_error e.
Proof.
  unfold earthquake_of.
  repeat match goal with
         | |- Py.and_then ?r _ = Raise e -> _ =>
             let H := fresh "H" in
             destruct r eqn:H; cbn [Py.and_then];
             [| intros Hr; inversion Hr; subst;
                first [ eapply getitem_error; eassumption
                      | eapply getindex_error; eassumption ] ]
         end.
  discriminate.
Qed.

Lemma lacks_mag_raises (filename : string) (feature : json) :
  lacks_mag feature -> exists e, earthquake_of filename feature = Raise e.
Proof.
  intros [members [props [-> [Hprops Hmag]]]].
  unfold earthquake_of. cbn [getitem]. rewrite Hprops. cbn [Py.and_then].
  destruct (lookup "geometry" members); cbn [Py.and_then]; [|eexists; reflexivity].
  destruct (getitem (JObj props) "time"); cbn [Py.and_then]; [|eexists; reflexivity].
  destruct (getitem (JObj props) "place"); cbn [Py.and_then]; [|eexists; reflexivity].
  cbn [getitem]. rewrite Hmag. eexists; reflexivity.
Qed.

Lemma short_coordinates_raises (filename : string) (feature : json) :
  short_coordinates feature -> exists e, earthquake_of filename feature = Raise e.
Proof.
  intros [members [geometry [coordinates [-> [Hgeo [Hco Hlen]]]]]].
  unfold earthquake_of. cbn [getitem]. rewrite Hgeo.
  destruct (lookup "properties" members) as [props|]; cbn [Py.and_then];
    [|eexists; reflexivity].
  destruct (getitem props "time"); cbn [Py.and_then]; [|eexists; reflexivity].
  destruct (getitem props "place"); cbn [Py.and_then]; [|eexists; reflexivity].
  destruct (getitem props "mag"); cbn [Py.and_then]; [|eexists; reflexivity].
  cbn [getitem]. rewrite Hco. cbn [Py.and_then getindex].
  destruct (nth_error coordinates 0); cbn [Py.and_then]; [|eexists; reflexivity].
  destruct (nth_error coordinates 1); cbn [Py.and_then]; [|eexists; reflexivity].
  assert (Hnone : nth_error coordinates 2 = None) by (apply nth_error_None; lia).
  rewrite Hnone. eexists; reflexivity.
Qed.

(** The loop stops at the first item that cannot be read. *)
Lemma for_features_raises (filename : string) (features : list json) (feature : json) :
  In feature features ->
  (exists e, earthquake_of filename feature = Raise e) ->
  forall earthquakes, exists e, for_features filename features earthquakes = Raise e.
Proof.
  intros Hin Hbad.
  induction features as [|g rest IH]; [contradiction|].
  intros earthquakes. cbn [for_features].
  destruct (earthquake_of filename g) as [d|e] eqn:Hg; cbn [Py.and_then].
  - destruct Hin as [->|Hin].
    + destruct Hbad as [e He]. rewrite He in Hg. discriminate.
    + apply IH. exact Hin.
  - exists e. reflexivity.
Qed.

Lemma for_features_error (filename : string) (features : list json) (e : exn) :
  forall earthquakes,
    for_features filename features earthquakes = Raise e -> parse_error e.
Proof.
  induction features as [|g rest IH]; intros earthquakes; cbn [for_features].
  - discriminate.
  - destruct (earthquake_of filename g) as [d|x] eqn:Hg; cbn [Py.and_then].
    + apply IH.
    + intros H. inversion H; subst. exact (earthquake_of_error _ _ _ Hg).
Qed.

(** The run of the script once the feed has answered with a body that
    decodes, up to the test of the status. *)
Lemma process_on_other_status (w : world) (resp : response) (v : json) :
  answered w resp ->
  body resp = Some v ->
  status_code resp <> 200 ->
  process_earthquake_data w
  = (Ok tt,
     {| now := now w; network := network w; fs := fs w;
        stdout := (((stdout w ++ [Line (str v)])
                    ++ [Line (decimal (status_code resp))])
                   ++ [Line ("Failed to retrive data: " ++ decimal (status_code resp))])%list |}).
Proof.
  intros [ago [Hago Hnet]] Hbody Hstatus.
  unfold process_earthquake_data. py_step.
  rewrite Hago. py_step. rewrite Hnet. py_step.
  unfold response_json. rewrite Hbody. py_step.
  apply Z.eqb_neq in Hstatus. rewrite Hstatus. reflexivity.
Qed.

Lemma process_on_unreadable_item (w : world) (resp : response) (v : json)
      (features : list json) (e : exn) :
  answered w resp ->
  body resp = Some v ->
  status_code resp = 200 ->
  getitem v "features" = Ok (JArr features) ->
  for_features (todays_batch w) features [] = Raise e ->
  process_earthquake_data w
  = (Raise e,
     {| now := now w; network := network w; fs := fs w;
        stdout := ((stdout w ++ [Line (str v)])
                   ++ [Line (decimal (status_code resp))])%list |}).
Proof.
  intros [ago [Hago Hnet]] Hbody Hstatus Hfeatures Hloop.
  unfold process_earthquake_data. py_step.
  rewrite Hago. py_step. rewrite Hnet. py_step.
  unfold response_json. rewrite Hbody. py_step.
  rewrite Hstatus. cbn [Z.eqb Pos.eqb]. py_step.
  rewrite Hfeatures. py_step. cbn [iter]. py_step.
  unfold todays_batch in Hloop. rewrite Hloop. reflexivity.
Qed.

(** The run of the script on a feed whose items can all be read. *)
Lemma process_on_feed (w : world) (resp : response) (v : json)
      (features : list json) (earthquakes : list dict) :
  answered w resp ->
  body resp = Some v ->
  status_code resp = 200 ->
  getitem v "features" = Ok (JArr features) ->
  for_features (todays_batch w) features [] = Ok earthquakes ->
  exists out,
    process_earthquake_data w
    = (Ok tt,
       {| now := now w; network := network w;
          fs := Csv.write (if Csv.exists_ (fs w) (todays_batch w)
                           then Csv.remove (fs w) (todays_batch w)
                           else fs w)
                          (todays_batch w) (to_csv (DataFrame_of earthquakes));
          stdout := out |}).
Proof.
  intros [ago [Hago Hnet]] Hbody Hstatus Hfeatures Hloop.
  unfold process_earthquake_data. py_step.
  rewrite Hago. py_step. rewrite Hnet. py_step.
  unfold response_json. rewrite Hbody. py_step.
  rewrite Hstatus. cbn [Z.eqb Pos.eqb]. py_step.
  rewrite Hfeatures. py_step. cbn [iter]. py_step.
  fold (todays_batch w). rewrite Hloop. py_step. unfold Csv.exists_.
  destruct (fs w (todays_batch w)) eqn:Hthere; py_step; rewrite ?Hthere; py_step;
    eexists; reflexivity.
Qed.

Lemma process_on_empty_feed (w : world) (resp : response) (v : json) :
  answered w resp ->
  body resp = Some v ->
  status_code resp = 200 ->
  getitem v "features" = Ok (JArr []) ->
  exists out,
    process_earthquake_data w
    = (Ok tt,
       {| now := now w; network := network w;
          fs := Csv.write (if Csv.exists_ (fs w) (todays_batch w)
                           then Csv.remove (fs w) (todays_batch w)
                           else fs w)
                          (todays_batch w) [[]];
          stdout := out |}).
Proof.
  intros Hfeed Hbody Hstatus Hfeatures.
  exact (process_on_feed w resp v [] [] Hfeed Hbody Hstatus Hfeatures eq_refl).
Qed.

(** *** The batch writer stamps every record with the batch path *)

Lemma earthquake_of_stamped (filename : string) (feature : json) (d : dict) :
  earthquake_of filename feature = Ok d -> stamped filename d.
Proof.
  unfold earthquake_of.
  repeat match goal with
         | |- Py.and_then ?r _ = Ok d -> _ =>
             destruct r; cbn [Py.and_then]; [|discriminate]
         end.
  intros H. inversion H. split; reflexivity.
Qed.

Lemma for_features_stamped (filename : string) (features : list json) :
  forall acc ds,
    Forall (stamped filename) acc ->
    for_features filename features acc = Ok ds ->
    Forall (stamped filename) ds
    /\ List.length ds = (List.length acc + List.length features)%nat.
Proof.
  induction features as [|g rest IH]; intros acc ds Hacc; cbn [for_features].
  - intros H. inversion H; subst. split; [exact Hacc | cbn; lia].
  - destruct (earthquake_of filename g) as [d|] eqn:Hg; cbn [Py.and_then]; [|discriminate].
    intros Hrest.
    destruct (IH (acc ++ [d])%list ds) as [Hds Hlen]; [|exact Hrest|].
    + apply Forall_app. split; [exact Hacc|].
      constructor; [exact (earthquake_of_stamped _ _ _ Hg) | constructor].
    + split; [exact Hds|]. rewrite Hlen, length_app. cbn. lia.
Qed.

Lemma columns_of_stamped (filename : string) (ds : list dict) (seen : list string) :
  Forall (stamped filename) ds ->
  seen = batch_columns ->
  fold_left (fun seen d => add_keys seen (map fst d)) ds seen = batch_columns.
Proof.
  intros Hds. revert seen. induction Hds as [|d ds [Hkeys _] _ IH]; intros seen ->.
  - reflexivity.
  - cbn [fold_left]. apply IH. rewrite Hkeys. reflexivity.
Qed.

Lemma DataFrame_of_stamped (filename : string) (d : dict) (ds : list dict) :
  Forall (stamped filename) (d :: ds) ->
  columns (DataFrame_of (d :: ds)) = batch_columns.
Proof.
  intros H. inversion H as [|? ? [Hkeys Hname] Hrest]; subst.
  unfold DataFrame_of. cbn [columns fold_left]. rewrite Hkeys.
  exact (columns_of_stamped filename ds _ Hrest eq_refl).
Qed.

(** With one record or more the file starts with the seven column names,
    and every data line ends with the batch path. *)
Lemma to_csv_stamped (filename : string) (ds : list dict) (c : ascii) (rest : string) :
  filename = String c rest ->
  Forall (stamped filename) ds ->
  Forall (keyed filename) (tl (to_csv (DataFrame_of ds)))
  /\ List.length (tl (to_csv (DataFrame_of ds))) = List.length ds
  /\ (ds <> [] -> hd [] (to_csv (DataFrame_of ds)) = batch_header).
Proof.
  intros Hname Hds. destruct ds as [|d ds].
  { repeat split; [constructor | contradiction]. }
  pose proof (DataFrame_of_stamped filename d ds Hds) as Hcols.
  unfold to_csv. cbn [tl hd]. rewrite Hcols.
  unfold DataFrame_of in *. cbn [columns values] in *. rewrite Hcols.
  split; [|split; [rewrite !length_map; reflexivity | reflexivity]].
  apply Forall_forall. intros r Hr. apply in_map_iff in Hr. destruct Hr as [row [<- Hrow]].
  apply in_map_iff in Hrow. destruct Hrow as [d' [<- Hd']].
  pose proof (proj1 (Forall_forall _ _) Hds d' Hd') as [_ Hfile].
  unfold keyed. cbn [map batch_columns nth_error]. rewrite Hfile, Hname. reflexivity.
Qed.

(** COPY keeps the last field as the row's filename. *)
Lemma copy_records_keyed (k : string) (records : list Csv.record) (rows : list Raw.row) :
  Forall (keyed k) records ->
  Csv.copy_records records = Ok rows ->
  Forall (of_batch k) rows.
Proof.
  intros Hkeyed. revert rows. induction Hkeyed as [|r rest Hr _ IH]; cbn; intros rows H.
  - inversion H. constructor.
  - destruct (Csv.copy_record r) as [row|] eqn:Hrow; cbn in H; [|discriminate].
    destruct (Csv.copy_records rest) as [rows'|]; cbn in H; [|discriminate].
    inversion H; subst. constructor; [|apply IH; reflexivity].
    unfold Csv.copy_record in Hrow.
    destruct r as [|t [|p [|m [|lo [|la [|de [|fn [|extra more]]]]]]]]; try discriminate.
    unfold keyed in Hr. cbn in Hr. inversion Hr; subst fn.
    repeat match type of Hrow with
           | Py.and_then ?x _ = Ok _ => destruct x; cbn [Py.and_then] in Hrow; [|discriminate]
           end.
    inversion Hrow. reflexivity.
Qed.

(** The rows a staging load reads from a batch file the script wrote all
    carry the file's path as their key, and there is one data line per feed
    item. *)
Lemma written_batch_is_keyed (w : world) (resp : response) (v : json)
      (features : list json) (earthquakes : list dict) :
  answered w resp ->
  body resp = Some v ->
  status_code resp = 200 ->
  getitem v "features" = Ok (JArr features) ->
  for_features (todays_batch w) features [] = Ok earthquakes ->
  exists f,
    fs (snd (process_earthquake_data w)) (todays_batch w) = Some f
    /\ List.length (tl f) = List.length features
    /\ forall rows, Csv.copy_header f = Ok rows ->
                    Forall (of_batch (todays_batch w)) rows
                    /\ List.length rows = List.length features.
Proof.
  intros Hfeed Hbody Hstatus Hfeatures Hloop.
  destruct (process_on_feed w resp v features earthquakes Hfeed Hbody Hstatus Hfeatures Hloop)
    as [out Hrun].
  rewrite Hrun. cbn [snd fs].
  exists (to_csv (DataFrame_of earthquakes)).
  destruct (for_features_stamped (todays_batch w) features [] earthquakes
              (Forall_nil _) Hloop) as [Hstamped Hcount].
  destruct (to_csv_stamped (todays_batch w) earthquakes "C"
              (String.append
                 ":\Users\iyanu\Downloads\LEARNING DATA ANALYTICS\Data Pipelines Course\earthquake_"
                 (Python.strftime "_" (now w) ++ ".csv"))
              eq_refl Hstamped) as [Hkeyed [Hlen _]].
  split; [|split].
  - unfold Csv.write. rewrite String.eqb_refl. reflexivity.
  - rewrite Hlen, Hcount. reflexivity.
  - intros rows Hrows. split.
    + exact (copy_records_keyed _ _ rows Hkeyed Hrows).
    + rewrite (copy_records_length _ rows Hrows), Hlen, Hcount. reflexivity.
Qed.

(** *** Trimming takes spaces off the two ends, and nothing else *)

Lemma ltrim_no_leading_space (s : string) : ~ starts_with_space (Sql.ltrim s).
Proof.
  induction s as [|c s IH]; cbn [Sql.ltrim].
  - intros [rest H]. discriminate.
  - destruct (Sql.is_space c) eqn:Hc; [exact IH|].
    intros [rest H]. inversion H; subst. discriminate Hc.
Qed.

Lemma rtrim_starts_as_given (s : string) :
  ~ starts_with_space s -> ~ starts_with_space (Sql.rtrim s).
Proof.
  destruct s as [|c s]; cbn [Sql.rtrim]; [auto|].
  intros Hc [rest H]. apply Hc.
  destruct (Sql.rtrim s).
  - destruct (Sql.is_space c); inversion H; subst. exists s. reflexivity.
  - inversion H; subst. exists s. reflexivity.
Qed.

Lemma rtrim_no_trailing_space (s : string) : ~ ends_with_space (Sql.rtrim s).
Proof.
  induction s as [|c s IH]; cbn [Sql.rtrim]; intros [front H].
  - destruct front; discriminate.
  - destruct (Sql.rtrim s) as [|d t] eqn:Ht.
    + destruct (Sql.is_space c) eqn:Hc.
      * destruct front; discriminate.
      * destruct front as [|a front]; cbn in H; inversion H; subst.
        -- discriminate Hc.
        -- destruct front; discriminate.
    + destruct front as [|a front]; cbn in H; inversion H; subst.
      apply IH. exists front. assumption.
Qed.

Lemma ltrim_gives_back (s : string) : exists n, s = spaces n ++ Sql.ltrim s.
Proof.
  induction s as [|c s [n IH]]; [exists 0%nat; reflexivity|].
  cbn [Sql.ltrim]. destruct (Sql.is_space c) eqn:Hc.
  - apply Ascii.eqb_eq in Hc. subst c. exists (S n). cbn. rewrite <- IH. reflexivity.
  - exists 0%nat. reflexivity.
Qed.

Lemma rtrim_gives_back (s : string) : exists m, s = Sql.rtrim s ++ spaces m.
Proof.
  induction s as [|c s [m IH]]; [exists 0%nat; reflexivity|].
  cbn [Sql.rtrim]. destruct (Sql.rtrim s) as [|d t].
  - cbn in IH. destruct (Sql.is_space c) eqn:Hc.
    + apply Ascii.eqb_eq in Hc. subst c. exists (S m). cbn. rewrite <- IH. reflexivity.
    + exists m. cbn. rewrite <- IH. reflexivity.
  - exists m. cbn. cbn in IH. rewrite <- IH. reflexivity.
Qed.

(** What [TRIM] returns is the text between its outer spaces. *)
Lemma trimmed_is_space_trimmed (s : string) : space_trimmed s (trimmed s).
Proof.
  unfold space_trimmed, trimmed. split; [|split].
  - destruct (ltrim_gives_back s) as [n Hn].
    destruct (rtrim_gives_back (Sql.ltrim s)) as [m Hm].
    exists n, m. rewrite <- Hm. exact Hn.
  - apply rtrim_starts_as_given, ltrim_no_leading_space.
  - apply rtrim_no_trailing_space.
Qed.

(* ================================================================== *)
(** ** The three stages on the sample data *)

(** The feed answers with one item; the script writes the day's batch. *)
Example sample_batch_written :
  let w := snd (process_earthquake_data (Sample.world (Sample.reply 200 [Sample.complete]))) in
  fs w (batch_path "2026_01_16")
  = Some [batch_header;
          [Some "1700000000000"; Some "10km ENE of Example Town"; Some "4.5";
           Some "-122.5"; Some "38.1"; Some "7.0"; Some (batch_path "2026_01_16")]].
Proof. reflexivity. Qed.

(** The batch on disk replaces the two rows the store has for its key. *)
Example sample_batch_loaded :
  LoadCsv.run Sample.disk Sample.key Sample.db Sql.UTC []
  = ({| earthquake :=
          [Sample.yesterday; Sample.example_town;
           Sample.raw 1700000360000 "Fiji region" Sample.key];
        stage_earthquake := stage_earthquake Sample.db |},
     []).
Proof. reflexivity. Qed.

(** November 2023 is rebuilt: the window's old fact goes, the two raw rows
    of 2023-11-14 come in. *)
Example sample_window_transformed :
  TransformEarthquake.run Sample.window_start Sample.window_end Sample.db Sql.UTC []
  = ({| earthquake := earthquake Sample.db;
        stage_earthquake :=
          [Sample.fact 1600000000 18518 "Somewhere";
           Sample.fact 1700000000 19675 "Example Town";
           Sample.fact 1700000000 19675 "ji region"] |},
     [Line "Data loaded successfully"]).
Proof. reflexivity. Qed.

(** A raw row whose time the store has no timestamp for makes the INSERT
    fail for every window, after the delete is committed. *)
Example sample_time_out_of_range :
  let db := {| earthquake := [Sample.raw 9300000000000000 "12km of Somewhere" Sample.key];
               stage_earthquake := stage_earthquake Sample.db |} in
  TransformEarthquake.run Sample.window_start Sample.window_end db Sql.UTC []
  = ({| earthquake := earthquake db;
        stage_earthquake := [Sample.fact 1600000000 18518 "Somewhere"] |},
     [ErrorLine "An error occurred: " (DataError "timestamp out of range")]).
Proof. reflexivity. Qed.

(** Two hours east of UTC the same instant falls on the next day. *)
Example sample_date_east_of_utc :
  derived_date (fun _ => 7200) Sample.example_town = Some (Sql.days_from_civil 2023 11 15)
  /\ derived_date Sql.UTC Sample.example_town = Some (Sql.days_from_civil 2023 11 14).
Proof. split; reflexivity. Qed.

(* ================================================================== *)
(** * The claims *)

(** ** Staging load and window transform: failure of the insert *)

(** C1, as the code has it.  The staging load and the window transform
    commit their delete and their insert separately.  When the insert step
    fails after the delete went through, nothing of the insert is kept, but
    the delete is not rolled back: the run ends with the store holding the
    old rows deleted and no new row inserted, and the error printed. *)
Theorem failed_insert_leaves_delete_committed :
  (forall fs k db tz failures c1 x c2,
      LoadCsv.delete_old_records k (connect db tz failures) = (Ok tt, c1) ->
      LoadCsv.load_csv_to_postgres fs k c1 = (Raise x, c2) ->
      LoadCsv.run fs k db tz failures
      = (without_batch k db, [ErrorLine "An error occurred: " x]))
  /\ (forall s e db tz failures c1 x c2,
         TransformEarthquake.delete_old_records s e (connect db tz failures) = (Ok tt, c1) ->
         TransformEarthquake.transform_earthquake s e c1 = (Raise x, c2) ->
         TransformEarthquake.run s e db tz failures
         = (without_window s e db, [ErrorLine "An error occurred: " x])).
Proof.
  split.
  - intros fs k db tz failures c1 x c2 Hdel Hins.
    unfold LoadCsv.run, LoadCsv.try_body, Py.bind. rewrite Hdel, Hins.
    destruct (load_delete_outcome k (connect db tz failures) (Ok tt) c1 eq_refl Hdel)
      as [_ [[_ [Hidle Hc1]] | [[y Hy] _]]]; [|discriminate].
    destruct (load_insert_outcome fs k c1 (Raise x) c2 Hidle Hins)
      as [[Hr _] | [_ Hc2]]; [discriminate|].
    unfold close. rewrite Hc2, Hc1. reflexivity.
  - intros s e db tz failures c1 x c2 Hdel Hins.
    unfold TransformEarthquake.run, TransformEarthquake.try_body, Py.bind.
    rewrite Hdel, Hins.
    destruct (transform_delete_outcome s e (connect db tz failures) (Ok tt) c1 eq_refl Hdel)
      as [_ [[_ [Hidle Hc1]] | [[y Hy] _]]]; [|discriminate].
    destruct (transform_insert_outcome s e c1 (Raise x) c2 Hidle Hins)
      as [[Hr _] | [_ Hc2]]; [discriminate|].
    unfold close. rewrite Hc2, Hc1. reflexivity.
Qed.

(** The batch file is missing when the load reaches it; the store refuses
    the transform's INSERT on its third round trip. *)
Lemma failed_insert_leaves_delete_committed_witness :
  LoadCsv.run Sample.no_files Sample.key Sample.db Sql.UTC []
  = ({| earthquake := [Sample.yesterday];
        stage_earthquake := stage_earthquake Sample.db |},
     [ErrorLine "An error occurred: " (FileNotFoundError Sample.key)])
  /\ TransformEarthquake.run Sample.window_start Sample.window_end Sample.db Sql.UTC
                             [false; false; true]
     = ({| earthquake := earthquake Sample.db;
           stage_earthquake := [Sample.fact 1600000000 18518 "Somewhere"] |},
        [ErrorLine "An error occurred: " OperationalError]).
Proof.
  split.
  - exact (proj1 failed_insert_leaves_delete_committed
             Sample.no_files Sample.key Sample.db Sql.UTC [] _ _ _ eq_refl eq_refl).
  - exact (proj2 failed_insert_leaves_delete_committed
             Sample.window_start Sample.window_end Sample.db Sql.UTC [false; false; true]
             _ _ _ eq_refl eq_refl).
Defined.

(** C1, as the claim words it, fails: in both runs the delete went through,
    the insert failed, and the store is not what it was before the call. *)
Lemma replace_is_not_atomic :
  ~ load_is_atomic Sample.no_files Sample.key Sample.db Sql.UTC []
  /\ ~ transform_is_atomic Sample.window_start Sample.window_end Sample.db Sql.UTC
                           [false; false; true].
Proof.
  split; intros Hatomic.
  - pose proof (Hatomic _ _ _ eq_refl eq_refl) as Hsame.
    vm_compute in Hsame. discriminate Hsame.
  - pose proof (Hatomic _ _ _ eq_refl eq_refl) as Hsame.
    vm_compute in Hsame. discriminate Hsame.
Qed.

(** ** Staging load: idempotence and frame *)

(** C3.  Loading the batch file of a key twice in a row, with no failure on
    the way, leaves the raw table as one load leaves it: the key has exactly
    the file's data rows, not twice as many.  The file is one whose rows
    carry the key, as the rows of every file the batch writer wrote do. *)
Theorem staging_reload_is_idempotent
        (fs : Csv.filesystem) (k : string) (db : Db) (tz : Sql.TimeZone)
        (f : Csv.file) (rows : list Raw.row) :
  fs k = Some f ->
  Csv.copy_header f = Ok rows ->
  Forall (of_batch k) rows ->
  let once := LoadCsv.run fs k db tz [] in
  let twice := LoadCsv.run fs k (fst once) tz [] in
  fst twice = fst once
  /\ count_key k (earthquake (fst twice)) = List.length (tl f)
  /\ count_key k (earthquake (fst once)) = List.length (tl f)
  /\ snd once = [] /\ snd twice = [].
Proof.
  intros Hf Hrows Hkey once twice. subst once twice.
  rewrite (load_run_reliable fs k db tz f rows Hf Hrows). cbn [fst snd].
  rewrite (load_run_reliable fs k _ tz f rows Hf Hrows). cbn [fst snd].
  assert (Hhas : Forall (fun r => has_key k r = true) rows).
  { apply Forall_forall. intros r Hr. apply has_key_of_filename.
    exact (proj1 (Forall_forall _ _) Hkey r Hr). }
  assert (Hlen : List.length rows = List.length (tl f))
    by (apply copy_records_length; exact Hrows).
  assert (Hcount : count_key k (earthquake (with_batch k rows db)) = List.length (tl f)).
  { unfold count_key, with_batch. cbn [earthquake].
    rewrite (replace_count (other_key k) (has_key k) (fun _ => eq_refl) _ rows Hhas).
    exact Hlen. }
  assert (Htwice : with_batch k rows (with_batch k rows db) = with_batch k rows db).
  { unfold with_batch. cbn [earthquake stage_earthquake]. f_equal.
    exact (replace_twice (other_key k) (has_key k) (fun _ => eq_refl) _ rows Hhas). }
  rewrite Htwice. repeat split; try reflexivity; exact Hcount.
Qed.

Lemma staging_reload_is_idempotent_witness :
  let once := LoadCsv.run Sample.disk Sample.key Sample.db Sql.UTC [] in
  let twice := LoadCsv.run Sample.disk Sample.key (fst once) Sql.UTC [] in
  fst twice = fst once
  /\ count_key Sample.key (earthquake (fst twice)) = 2%nat
  /\ count_key Sample.key (earthquake (fst once)) = 2%nat
  /\ snd once = [] /\ snd twice = [].
Proof.
  refine (staging_reload_is_idempotent Sample.disk Sample.key Sample.db Sql.UTC
            Sample.batch_file _ eq_refl eq_refl _).
  repeat constructor.
Defined.

(** C9.  Whatever way a staging load of key [k] ends, the raw table is
    then a list of kept old rows followed by added rows, where the kept rows
    include every old row whose filename is not [k], in their order, and the
    added rows are none or the rows of the batch file.  The fact table is
    not touched. *)
Theorem staging_load_keeps_other_batches
        (fs : Csv.filesystem) (k : string) (db : Db) (tz : Sql.TimeZone)
        (failures : list bool) :
  let after := fst (LoadCsv.run fs k db tz failures) in
  exists kept added,
    earthquake after = (kept ++ added)%list
    /\ filter (other_key k) kept = filter (other_key k) (earthquake db)
    /\ (forall r, In r kept -> In r (earthquake db))
    /\ (added = [] \/ exists f, fs k = Some f /\ Csv.copy_header f = Ok added)
    /\ filter (other_key k) (earthquake after)
       = (filter (other_key k) (earthquake db) ++ filter (other_key k) added)%list
    /\ stage_earthquake after = stage_earthquake db.
Proof.
  intros after.
  destruct (load_run_outcome fs k db tz failures)
    as [Hsame | [Hdel | [f [rows [Hf [Hrows Hboth]]]]]].
  - exists (earthquake db), []. fold after in Hsame. rewrite Hsame, !app_nil_r.
    repeat split; auto.
  - exists (filter (other_key k) (earthquake db)), []. fold after in Hdel.
    rewrite Hdel, !app_nil_r. cbn [earthquake stage_earthquake without_batch].
    repeat split; auto using filter_kept_again.
    intros r. apply filter_subset.
  - exists (filter (other_key k) (earthquake db)), rows. fold after in Hboth.
    rewrite Hboth. cbn [earthquake stage_earthquake with_batch].
    rewrite filter_app, filter_kept_again.
    repeat split; eauto using filter_kept_again.
    intros r. apply filter_subset.
Qed.

(** ** Window transform: idempotence and frame *)

(** C4.  Running the transform of a window twice in a row, with no failure
    on the way and raw times the store has timestamps for, leaves the fact
    table as one run leaves it: the window holds as many rows as there are
    raw rows whose derived date falls in it. *)
Theorem window_transform_is_idempotent
        (s e : Sql.date) (db : Db) (tz : Sql.TimeZone) :
  Forall timestamp_ok (earthquake db) ->
  let once := TransformEarthquake.run s e db tz [] in
  let twice := TransformEarthquake.run s e (fst once) tz [] in
  fst twice = fst once
  /\ count_window s e (stage_earthquake (fst twice))
     = count_window s e (stage_earthquake (fst once))
  /\ count_window s e (stage_earthquake (fst once))
     = List.length (filter (raw_in_window tz s e) (earthquake db))
  /\ snd once = [Line "Data loaded successfully"]
  /\ snd twice = [Line "Data loaded successfully"].
Proof.
  intros Hok once twice. subst once twice.
  rewrite (transform_run_reliable s e db tz Hok). cbn [fst snd].
  rewrite (transform_run_reliable s e (with_window tz s e db) tz Hok). cbn [fst snd].
  pose proof (derived_in_window tz s e (earthquake db)) as Hnew.
  assert (Htwice : with_window tz s e (with_window tz s e db) = with_window tz s e db).
  { unfold with_window. cbn [earthquake stage_earthquake]. f_equal.
    exact (replace_twice (outside_window s e) (fact_in_window s e) (fun _ => eq_refl)
             _ _ Hnew). }
  rewrite Htwice. repeat split; try reflexivity.
  unfold count_window, with_window. cbn [stage_earthquake].
  rewrite (replace_count (outside_window s e) (fact_in_window s e) (fun _ => eq_refl)
             _ _ Hnew).
  apply length_map.
Qed.

Lemma window_transform_is_idempotent_witness :
  let once :=
    TransformEarthquake.run Sample.window_start Sample.window_end Sample.db Sql.UTC [] in
  let twice :=
    TransformEarthquake.run Sample.window_start Sample.window_end (fst once) Sql.UTC [] in
  fst twice = fst once
  /\ count_window Sample.window_start Sample.window_end (stage_earthquake (fst twice))
     = count_window Sample.window_start Sample.window_end (stage_earthquake (fst once))
  /\ count_window Sample.window_start Sample.window_end (stage_earthquake (fst once))
     = 2%nat
  /\ snd once = [Line "Data loaded successfully"]
  /\ snd twice = [Line "Data loaded successfully"].
Proof.
  refine (window_transform_is_idempotent
            Sample.window_start Sample.window_end Sample.db Sql.UTC _).
  repeat constructor; vm_compute; first [reflexivity | discriminate].
Defined.

(** C10.  Whatever way a window transform ends, the raw table is what it
    was: the delete and the insert write the fact table only. *)
Theorem transform_leaves_raw_table_unchanged
        (s e : Sql.date) (db : Db) (tz : Sql.TimeZone) (failures : list bool) :
  earthquake (fst (TransformEarthquake.run s e db tz failures)) = earthquake db.
Proof.
  destruct (transform_run_outcome s e db tz failures)
    as [Hsame | [Hdel | [facts [_ Hboth]]]].
  - rewrite Hsame. reflexivity.
  - rewrite Hdel. reflexivity.
  - rewrite Hboth. reflexivity.
Qed.

(** ** Window transform: the derived fields *)

(** C7, as the code has it.  When the place of a raw row contains the
    token "of ", the place of the fact row derived from it is what follows
    the first occurrence of the token, that is the raw place from the third
    character after the start of that occurrence on, without the space
    characters at its two ends: it lies between two runs of spaces in what
    follows the token, and has a space at neither end.  "10km ENE of Example
    Town" gives "Example Town". *)
Theorem place_follows_first_token
        (tz : Sql.TimeZone) (r : Raw.row) (p : string) :
  timestamp_ok r ->
  Raw.place r = Some p ->
  occurs "of " p ->
  exists f,
    TransformEarthquake.select_list tz r = Ok f
    /\ (exists pre rest q,
           first_occurrence "of " p pre rest
           /\ rest = Sql.drop (String.length pre + 3) p
           /\ Fact.place f = Some q
           /\ space_trimmed rest q)
    /\ (p = "10km ENE of Example Town" -> Fact.place f = Some "Example Town").
Proof.
  intros Hok Hplace Hocc. exists (derived tz r).
  pose proof (select_list_ok tz r Hok) as Hrow.
  split; [exact Hrow|].
  rewrite (select_list_place tz r _ Hrow), Hplace.
  split.
  - destruct (position_of_occurrence "of " p Hocc) as [n Hn].
    destruct (position_succ "of " p n Hn) as [pre [rest [Hfirst Hlen]]].
    exists pre, rest, (trimmed rest). split; [exact Hfirst|]. split; [|split].
    + destruct Hfirst as [Heq _]. rewrite drop_drop.
      rewrite Heq at 1. rewrite drop_append. reflexivity.
    + exact (clean_place_found p pre rest Hfirst).
    + apply trimmed_is_space_trimmed.
  - intros ->. reflexivity.
Qed.

Lemma place_follows_first_token_witness :
  exists f,
    TransformEarthquake.select_list Sql.UTC Sample.example_town = Ok f
    /\ (exists pre rest q,
           first_occurrence "of " "10km ENE of Example Town" pre rest
           /\ rest = Sql.drop (String.length pre + 3) "10km ENE of Example Town"
           /\ Fact.place f = Some q
           /\ space_trimmed rest q)
    /\ ("10km ENE of Example Town" = "10km ENE of Example Town" ->
        Fact.place f = Some "Example Town").
Proof.
  refine (place_follows_first_token Sql.UTC Sample.example_town
            "10km ENE of Example Town" _ eq_refl _).
  - vm_compute. split; [discriminate | reflexivity].
  - exists "10km ENE ", "Example Town". reflexivity.
Defined.

(** C7, as the claim words it, fails: [TRIM] takes off the space character
    only, so a place that ends with a tab keeps the tab. *)
Lemma tab_survives_the_trim :
  (exists f,
      TransformEarthquake.select_list Sql.UTC More.town_tab = Ok f
      /\ Fact.place f = Some ("Town" ++ More.tab))
  /\ ~ place_is_whitespace_trimmed Sql.UTC More.town_tab.
Proof.
  split.
  - eexists. split; reflexivity.
  - intros Hclaim.
    destruct (Hclaim ("1km N of Town" ++ More.tab) (derived Sql.UTC More.town_tab)
                eq_refl) as [pre [rest [q [_ [Hq [_ [_ Hend]]]]]]].
    + exists "1km N ", ("Town" ++ More.tab). reflexivity.
    + reflexivity.
    + vm_compute in Hq. inversion Hq; subst q. apply Hend.
      exists "Town", (ascii_of_N 9). split; reflexivity.
Qed.

(** C8, as the code has it.  The fact row derived from a raw row has for
    timestamp the instant [time / 1000] seconds after the epoch, the
    division being the integer one, and for date the day of that timestamp
    on the clock of the session's time zone, which the script does not set.
    For a time of 1700000000000 the date is the day of 1700000000 seconds
    after the epoch on that clock: it is 2023-11-14, the day on UTC, exactly
    when the zone's offset at that instant is at least -80000 seconds and
    less than 6400 seconds, so in particular in a session on UTC. *)
Theorem event_timestamp_and_date
        (tz : Sql.TimeZone) (r : Raw.row) (t : Z) :
  Raw.time r = Some t ->
  timestamp_ok r ->
  exists f,
    TransformEarthquake.select_list tz r = Ok f
    /\ Fact.ts f = Some (t ÷ 1000)
    /\ Fact.dt f = Sql.date_of tz (Fact.ts f)
    /\ Fact.dt f = Some ((t ÷ 1000 + tz (t ÷ 1000)) / 86400)
    /\ (t = 1700000000000 ->
        Fact.dt f = Some ((1700000000 + tz 1700000000) / 86400)
        /\ (Fact.dt f = Some (Sql.days_from_civil 2023 11 14)
            <-> - 80000 <= tz 1700000000 < 6400)
        /\ (tz 1700000000 = 0 -> Fact.dt f = Some (1700000000 / 86400))
        /\ Sql.civil_from_days (1700000000 / 86400) = (2023, 11, 14)).
Proof.
  intros Htime Hok. exists (derived tz r).
  split; [exact (select_list_ok tz r Hok)|].
  unfold derived, derived_date, epoch_seconds. rewrite Htime.
  cbn [Fact.ts Fact.dt option_map Sql.date_of].
  split; [reflexivity|]. split; [reflexivity|]. split; [reflexivity|].
  intros ->. change (1700000000000 ÷ 1000) with 1700000000.
  change (Sql.days_from_civil 2023 11 14) with 19675.
  split; [reflexivity|]. split; [|split; [|reflexivity]].
  - assert (Hday : forall o, (1700000000 + o) / 86400 = 19675 <-> - 80000 <= o < 6400).
    { clear. intros o. split; intros H; Z.div_mod_to_equations; lia. }
    generalize (tz 1700000000). intros o.
    change (Some ((1700000000 + o) / 86400) = Some 19675 <-> - 80000 <= o < 6400).
    rewrite <- Hday. split; [intros Hsome; congruence | intros ->; reflexivity].
  - intros ->. reflexivity.
Qed.

Lemma event_timestamp_and_date_witness :
  exists f,
    TransformEarthquake.select_list Sql.UTC Sample.example_town = Ok f
    /\ Fact.ts f = Some (1700000000000 ÷ 1000)
    /\ Fact.dt f = Sql.date_of Sql.UTC (Fact.ts f)
    /\ Fact.dt f = Some ((1700000000000 ÷ 1000 + Sql.UTC (1700000000000 ÷ 1000)) / 86400)
    /\ (1700000000000 = 1700000000000 ->
        Fact.dt f = Some ((1700000000 + Sql.UTC 1700000000) / 86400)
        /\ (Fact.dt f = Some (Sql.days_from_civil 2023 11 14)
            <-> - 80000 <= Sql.UTC 1700000000 < 6400)
        /\ (Sql.UTC 1700000000 = 0 -> Fact.dt f = Some (1700000000 / 86400))
        /\ Sql.civil_from_days (1700000000 / 86400) = (2023, 11, 14)).
Proof.
  refine (event_timestamp_and_date Sql.UTC Sample.example_town 1700000000000 eq_refl _).
  vm_compute. split; [discriminate | reflexivity].
Defined.

(** C8, as the claim words it, fails: in a session two hours east of UTC
    the row of time 1700000000000 is dated 2023-11-15, not the day on UTC. *)
Lemma example_is_dated_by_the_session :
  (exists f,
      TransformEarthquake.select_list More.two_hours_east Sample.example_town = Ok f
      /\ Fact.dt f = Some (Sql.days_from_civil 2023 11 15))
  /\ ~ example_is_dated_on_utc More.two_hours_east.
Proof.
  split.
  - eexists. split; reflexivity.
  - intros Hclaim.
    pose proof (Hclaim Sample.example_town (derived More.two_hours_east Sample.example_town)
                  eq_refl eq_refl) as Hday.
    vm_compute in Hday. discriminate Hday.
Qed.

(** C2, on the code.  When the place of a raw row does not contain the
    token "of ", the position found is 0 and the place of the fact row is
    the raw place from its third character on, without the spaces at its
    ends: the first two characters are lost. *)
Theorem place_without_token_loses_two_characters
        (tz : Sql.TimeZone) (r : Raw.row) (p : string) :
  timestamp_ok r ->
  Raw.place r = Some p ->
  ~ occurs "of " p ->
  exists f,
    TransformEarthquake.select_list tz r = Ok f
    /\ Sql.position (Some "of ") (Raw.place r) = Some 0
    /\ Fact.place f = Some (trimmed (Sql.drop 2 p)).
Proof.
  intros Hok Hplace Habsent. exists (derived tz r).
  pose proof (select_list_ok tz r Hok) as Hrow.
  split; [exact Hrow|].
  rewrite (select_list_place tz r _ Hrow), Hplace. split.
  - unfold Sql.position.
    destruct (Sql.position_nat "of " p) as [|n] eqn:Hpos; [reflexivity|].
    exfalso. apply Habsent.
    destruct (position_succ "of " p n Hpos) as [pre [rest [[Heq _] _]]].
    exists pre, rest. exact Heq.
  - exact (clean_place_absent p Habsent).
Qed.

(** "Fiji region" becomes "ji region". *)
Lemma place_without_token_loses_two_characters_witness :
  exists f,
    TransformEarthquake.select_list Sql.UTC Sample.fiji = Ok f
    /\ Sql.position (Some "of ") (Raw.place Sample.fiji) = Some 0
    /\ Fact.place f = Some "ji region".
Proof.
  refine (place_without_token_loses_two_characters Sql.UTC Sample.fiji "Fiji region"
            _ eq_refl _).
  - vm_compute. split; [discriminate | reflexivity].
  - apply position_zero. reflexivity.
Defined.

(** ** Feed fetch and batch writer *)

Lemma sample_answered (resp : response) : answered (Sample.world resp) resp.
Proof. eexists. split; reflexivity. Qed.

(** C5, on the code.  When the feed answers 200 with no features, the
    script writes a batch file of one line without any column name, not the
    line [time,place,magnitude,longitude,latitude,depth,file_name]; loading
    that file goes through and adds no row. *)
Theorem empty_feed_writes_no_column_names
        (w : world) (resp : response) (v : json) :
  answered w resp ->
  body resp = Some v ->
  status_code resp = 200 ->
  getitem v "features" = Ok (JArr []) ->
  let after := process_earthquake_data w in
  fst after = Ok tt
  /\ fs (snd after) (todays_batch w) = Some [[]]
  /\ fs (snd after) (todays_batch w) <> Some [batch_header]
  /\ forall db tz,
      LoadCsv.run (fs (snd after)) (todays_batch w) db tz []
      = (with_batch (todays_batch w) [] db, [])
      /\ count_key (todays_batch w) (earthquake (with_batch (todays_batch w) [] db)) = 0%nat.
Proof.
  intros Hfeed Hbody Hstatus Hfeatures after.
  destruct (process_on_empty_feed w resp v Hfeed Hbody Hstatus Hfeatures) as [out Hrun].
  subst after. rewrite Hrun. cbn [fst snd fs].
  assert (Hfile : forall disk, Csv.write disk (todays_batch w) [[]] (todays_batch w)
                               = Some [[]]).
  { intros disk. unfold Csv.write. rewrite String.eqb_refl. reflexivity. }
  rewrite Hfile. repeat split.
  - discriminate.
  - apply (load_run_reliable _ _ db tz [[]] []); [apply Hfile | reflexivity].
  - unfold count_key, with_batch. cbn [earthquake]. rewrite app_nil_r.
    rewrite (filter_dropped_of_kept (other_key (todays_batch w)) (has_key (todays_batch w))
               (fun _ => eq_refl)).
    reflexivity.
Qed.

Lemma empty_feed_writes_no_column_names_witness :
  let w := Sample.world (Sample.reply 200 []) in
  let after := process_earthquake_data w in
  fst after = Ok tt
  /\ fs (snd after) (todays_batch w) = Some [[]]
  /\ fs (snd after) (todays_batch w) <> Some [batch_header]
  /\ forall db tz,
      LoadCsv.run (fs (snd after)) (todays_batch w) db tz []
      = (with_batch (todays_batch w) [] db, [])
      /\ count_key (todays_batch w) (earthquake (with_batch (todays_batch w) [] db)) = 0%nat.
Proof.
  exact (empty_feed_writes_no_column_names
           (Sample.world (Sample.reply 200 [])) (Sample.reply 200 [])
           (Sample.collection []) (sample_answered _) eq_refl eq_refl eq_refl).
Defined.

(** C6, as the code has it.  When the feed answers with a status other
    than 200 (and a body that decodes), the script raises nothing: it prints
    the failure, writes no file and returns.  When the feed answers 200 and
    one of the items has no [mag] or fewer than three coordinates, the script
    raises a [KeyError], an [IndexError] or a [TypeError], and writes no
    file. *)
Theorem feed_fetch_outcomes (w : world) (resp : response) (v : json) :
  answered w resp ->
  body resp = Some v ->
  let after := process_earthquake_data w in
  (status_code resp <> 200 ->
   fst after = Ok tt
   /\ fs (snd after) = fs w
   /\ stdout (snd after)
      = (stdout w ++ [Line (str v); Line (decimal (status_code resp));
                      Line ("Failed to retrive data: " ++ decimal (status_code resp))])%list)
  /\ (status_code resp = 200 ->
      forall features feature,
        getitem v "features" = Ok (JArr features) ->
        In feature features ->
        lacks_mag feature \/ short_coordinates feature ->
        exists e, fst after = Raise e /\ parse_error e /\ fs (snd after) = fs w).
Proof.
  intros Hfeed Hbody after. subst after. split.
  - intros Hstatus.
    rewrite (process_on_other_status w resp v Hfeed Hbody Hstatus). cbn [fst snd fs stdout].
    repeat split; try reflexivity. rewrite <- !app_assoc. reflexivity.
  - intros Hstatus features feature Hfeatures Hin Hbad.
    assert (Hraise : exists e, earthquake_of (todays_batch w) feature = Raise e).
    { destruct Hbad as [Hmag | Hshort];
        [apply lacks_mag_raises | apply short_coordinates_raises]; assumption. }
    destruct (for_features_raises (todays_batch w) features feature Hin Hraise [])
      as [e He].
    rewrite (process_on_unreadable_item w resp v features e Hfeed Hbody Hstatus Hfeatures He).
    exists e. cbn [fst snd fs]. repeat split.
    exact (for_features_error _ _ _ _ He).
Qed.

Lemma feed_fetch_outcomes_witness :
  (let after := process_earthquake_data (Sample.world (Sample.reply 404 [Sample.complete])) in
   fst after = Ok tt
   /\ fs (snd after) = Sample.no_files
   /\ stdout (snd after)
      = [Line (str (Sample.collection [Sample.complete])); Line "404";
         Line "Failed to retrive data: 404"])
  /\ (exists e,
         fst (process_earthquake_data
                (Sample.world (Sample.reply 200 [Sample.complete; Sample.without_mag])))
         = Raise e
         /\ parse_error e)
  /\ (exists e,
         fst (process_earthquake_data
                (Sample.world (Sample.reply 200 [Sample.two_coordinates])))
         = Raise e
         /\ parse_error e).
Proof.
  split; [|split].
  - refine (proj1 (feed_fetch_outcomes
                     (Sample.world (Sample.reply 404 [Sample.complete]))
                     (Sample.reply 404 [Sample.complete]) _
                     (sample_answered _) eq_refl) _).
    discriminate.
  - destruct (proj2 (feed_fetch_outcomes
                       (Sample.world (Sample.reply 200 [Sample.complete; Sample.without_mag]))
                       (Sample.reply 200 [Sample.complete; Sample.without_mag]) _
                       (sample_answered _) eq_refl)
                    eq_refl _ Sample.without_mag eq_refl (or_intror (or_introl eq_refl)))
      as [e [He [Hkind _]]].
    + left. do 2 eexists. repeat split; reflexivity.
    + exists e. split; assumption.
  - destruct (proj2 (feed_fetch_outcomes
                       (Sample.world (Sample.reply 200 [Sample.two_coordinates]))
                       (Sample.reply 200 [Sample.two_coordinates]) _
                       (sample_answered _) eq_refl)
                    eq_refl _ Sample.two_coordinates eq_refl (or_introl eq_refl))
      as [e [He [Hkind _]]].
    + right. do 3 eexists. repeat split; try reflexivity. cbn. lia.
    + exists e. split; assumption.
Defined.

(** C6, as the claim words it, fails: the feed answers 404 and the script
    returns without raising. *)
Lemma status_404_returns_normally :
  fst (process_earthquake_data (Sample.world (Sample.reply 404 [Sample.complete]))) = Ok tt
  /\ ~ fails_when_unavailable (Sample.world (Sample.reply 404 [Sample.complete])).
Proof.
  split; [reflexivity|].
  intros Hfails.
  destruct (Hfails (Sample.reply 404 [Sample.complete]) (sample_answered _)) as [e He].
  - discriminate.
  - vm_compute in He. discriminate He.
Qed.

(* ================================================================== *)
(** * Further properties *)

(** ** The feed fetch and the disk *)

(** The disk after a run: as it was, or with the day's batch replaced at
    the end of a run that raised nothing. *)
Lemma process_disk (w : world) :
  fs (snd (process_earthquake_data w)) = fs w
  \/ (fst (process_earthquake_data w) = Ok tt
      /\ exists f,
          fs (snd (process_earthquake_data w))
          = Csv.write (if Csv.exists_ (fs w) (todays_batch w)
                       then Csv.remove (fs w) (todays_batch w)
                       else fs w)
                      (todays_batch w) f).
Proof.
  unfold process_earthquake_data. py_step.
  destruct (minus_days (now w) 15) as [ago|]; py_step; [|left; reflexivity].
  destruct (network w _) as [resp|]; py_step; [|left; reflexivity].
  destruct (response_json resp) as [v|]; py_step; [|left; reflexivity].
  destruct (status_code resp =? 200); py_step; [|left; reflexivity].
  destruct (getitem v "features") as [features|]; py_step; [|left; reflexivity].
  destruct (iter features) as [items|]; py_step; [|left; reflexivity].
  fold (todays_batch w).
  destruct (for_features (todays_batch w) items []) as [earthquakes|]; py_step;
    [|left; reflexivity].
  right. unfold Csv.exists_.
  destruct (fs w (todays_batch w)) eqn:Hthere; py_step; rewrite ?Hthere; py_step;
    (split; [reflexivity | eexists; reflexivity]).
Qed.

(** X2.  Whatever way a run ends, the only file it can have changed is the
    batch of the run's day: every other path holds what it held. *)
Theorem fetch_touches_only_todays_batch (w : world) (path : string) :
  path <> todays_batch w ->
  fs (snd (process_earthquake_data w)) path = fs w path.
Proof.
  intros Hother. apply String.eqb_neq in Hother.
  destruct (process_disk w) as [Hsame | [_ [f Hwritten]]].
  - rewrite Hsame. reflexivity.
  - rewrite Hwritten. unfold Csv.write. rewrite Hother.
    destruct (Csv.exists_ (fs w) (todays_batch w)); [|reflexivity].
    unfold Csv.remove. rewrite Hother. reflexivity.
Qed.

Lemma fetch_touches_only_todays_batch_witness :
  fs (snd (process_earthquake_data
             (More.world_on More.disk_with_batch (Sample.reply 200 [Sample.complete]))))
     Sample.key
  = Some Sample.batch_file.
Proof.
  refine (fetch_touches_only_todays_batch
            (More.world_on More.disk_with_batch (Sample.reply 200 [Sample.complete]))
            Sample.key _).
  vm_compute. discriminate.
Defined.

(** X3.  When the feed answers 200 with items that can all be read, and at
    least one of them, the day's batch file is, whatever file was there
    before, the line of the seven column names followed by one line per
    item, each of seven fields, the last one the path of the file. *)
Theorem batch_file_replaces_previous
        (w : world) (resp : response) (v : json)
        (features : list json) (earthquakes : list dict) :
  answered w resp ->
  body resp = Some v ->
  status_code resp = 200 ->
  getitem v "features" = Ok (JArr features) ->
  for_features (todays_batch w) features [] = Ok earthquakes ->
  features <> [] ->
  exists lines,
    fs (snd (process_earthquake_data w)) (todays_batch w) = Some (batch_header :: lines)
    /\ List.length lines = List.length features
    /\ Forall (fun l => List.length l = 7%nat /\ keyed (todays_batch w) l) lines.
Proof.
  intros Hfeed Hbody Hstatus Hfeatures Hloop Hsome.
  destruct (process_on_feed w resp v features earthquakes Hfeed Hbody Hstatus Hfeatures Hloop)
    as [out Hrun].
  rewrite Hrun. cbn [snd fs]. unfold Csv.write. rewrite String.eqb_refl.
  destruct (for_features_stamped (todays_batch w) features [] earthquakes
              (Forall_nil _) Hloop) as [Hstamped Hcount].
  destruct (to_csv_stamped (todays_batch w) earthquakes "C"
              (String.append
                 ":\Users\iyanu\Downloads\LEARNING DATA ANALYTICS\Data Pipelines Course\earthquake_"
                 (Python.strftime "_" (now w) ++ ".csv"))
              eq_refl Hstamped) as [Hkeyed [Hlen Hhead]].
  assert (Hne : earthquakes <> []).
  { intros ->. cbn in Hcount. destruct features; [contradiction | discriminate]. }
  specialize (Hhead Hne).
  destruct earthquakes as [|d ds]; [contradiction|].
  pose proof (DataFrame_of_stamped (todays_batch w) d ds Hstamped) as Hcols.
  exists (tl (to_csv (DataFrame_of (d :: ds)))).
  split; [|split].
  - f_equal. unfold to_csv in *. cbn [hd tl] in *. rewrite <- Hhead. reflexivity.
  - rewrite Hlen. exact Hcount.
  - apply Forall_forall. intros l Hl. split.
    + unfold to_csv in Hl. cbn [tl] in Hl. apply in_map_iff in Hl.
      destruct Hl as [row [<- Hrow]]. rewrite length_map.
      unfold DataFrame_of in Hrow, Hcols. cbn [values columns] in Hrow, Hcols.
      apply in_map_iff in Hrow. destruct Hrow as [d' [<- _]].
      rewrite length_map, Hcols. reflexivity.
    + exact (proj1 (Forall_forall _ _) Hkeyed l Hl).
Qed.

Lemma batch_file_replaces_previous_witness :
  exists lines,
    fs (snd (process_earthquake_data
               (More.world_on More.disk_with_batch (Sample.reply 200 [Sample.complete]))))
       More.todays_path
    = Some (batch_header :: lines)
    /\ List.length lines = 1%nat
    /\ Forall (fun l => List.length l = 7%nat /\ keyed More.todays_path l) lines.
Proof.
  refine (batch_file_replaces_previous
            (More.world_on More.disk_with_batch (Sample.reply 200 [Sample.complete]))
            (Sample.reply 200 [Sample.complete]) (Sample.collection [Sample.complete])
            [Sample.complete] _ _ eq_refl eq_refl eq_refl eq_refl _).
  - eexists. split; reflexivity.
  - discriminate.
Defined.

(** X4.  A body that does not decode makes the script raise
    [JSONDecodeError] at its first print, before the status is looked at:
    also for a status other than 200, nothing is printed and nothing is
    written. *)
Theorem undecodable_body_raises_before_status_test (w : world) (resp : response) :
  answered w resp ->
  body resp = None ->
  process_earthquake_data w = (Raise JSONDecodeError, w).
Proof.
  intros [ago [Hago Hnet]] Hbody.
  unfold process_earthquake_data. py_step.
  rewrite Hago. py_step. rewrite Hnet. py_step.
  unfold response_json. rewrite Hbody. reflexivity.
Qed.

Lemma answered_on (disk : Csv.filesystem) (resp : response) :
  answered (More.world_on disk resp) resp.
Proof. eexists. split; reflexivity. Qed.

Lemma undecodable_body_raises_before_status_test_witness :
  process_earthquake_data (More.world_on Sample.no_files (More.garbled 503))
  = (Raise JSONDecodeError, More.world_on Sample.no_files (More.garbled 503)).
Proof.
  exact (undecodable_body_raises_before_status_test
           (More.world_on Sample.no_files (More.garbled 503)) (More.garbled 503)
           (answered_on _ _) eq_refl).
Defined.

(** X5.  When the feed answers 200 with a body in which [features] cannot
    be looked up, the script raises after printing the body and the
    status, and leaves the disk as it was: [KeyError] when the body is an
    object (it has then no [features]), [TypeError] when the body is not an
    object. *)
Theorem body_without_features_raises (w : world) (resp : response) (v : json) :
  answered w resp ->
  body resp = Some v ->
  status_code resp = 200 ->
  (forall features, getitem v "features" <> Ok features) ->
  exists e,
    process_earthquake_data w
    = (Raise e,
       {| now := now w; network := network w; fs := fs w;
          stdout := (stdout w ++ [Line (str v); Line "200"])%list |})
    /\ e = match v with
           | JObj _ => KeyError "features"
           | _ => TypeError
           end
    /\ ((exists members, v = JObj members) -> e = KeyError "features")
    /\ ((forall members, v <> JObj members) -> e = TypeError).
Proof.
  intros [ago [Hago Hnet]] Hbody Hstatus Hnone.
  unfold process_earthquake_data. py_step.
  rewrite Hago. py_step. rewrite Hnet. py_step.
  unfold response_json. rewrite Hbody. py_step.
  rewrite Hstatus. cbn [Z.eqb Pos.eqb]. py_step.
  destruct (getitem v "features") as [features|e] eqn:Hget.
  { exfalso. exact (Hnone features eq_refl). }
  exists e. change (decimal 200) with "200". rewrite <- app_assoc.
  split; [reflexivity|].
  destruct v; cbn in Hget;
    try (inversion Hget; subst; split; [reflexivity|];
         split; [intros [ms Hms]; discriminate Hms | intros _; reflexivity]).
  destruct (lookup "features" members); inversion Hget; subst.
  split; [reflexivity|].
  split; [intros _; reflexivity | intros Hno; exfalso; exact (Hno members eq_refl)].
Qed.

Lemma body_without_features_raises_witness :
  exists e,
    process_earthquake_data (More.world_on Sample.no_files More.featureless)
    = (Raise e,
       {| now := now (More.world_on Sample.no_files More.featureless);
          network := network (More.world_on Sample.no_files More.featureless);
          fs := Sample.no_files;
          stdout := [Line "{'type': 'FeatureCollection'}"; Line "200"] |})
    /\ e = KeyError "features"
    /\ ((exists members, JObj [("type", JStr "FeatureCollection")] = JObj members)
        -> e = KeyError "features")
    /\ ((forall members, JObj [("type", JStr "FeatureCollection")] <> JObj members)
        -> e = TypeError).
Proof.
  refine (body_without_features_raises
            (More.world_on Sample.no_files More.featureless) More.featureless
            (JObj [("type", JStr "FeatureCollection")])
            (answered_on _ _) eq_refl eq_refl _).
  intros features. discriminate.
Defined.

(** *** The window of the request *)




(** ** From the feed to the raw table *)

(** *** Integers: what the writer prints, COPY reads *)

Lemma digits_of_uint_acc (d : Decimal.uint) :
  forall p : positive,
    Csv.digits (Zpos p) (NilEmpty.string_of_uint d) = Some (Zpos (Pos.of_uint_acc d p)).
Proof.
  induction d; intros p; cbn [NilEmpty.string_of_uint Csv.digits Pos.of_uint_acc];
    try reflexivity;
    match goal with
    | |- context [Csv.digit ?c] =>
        let k := eval vm_compute in (Z.of_N (N_of_ascii c) - 48) in
        change (Csv.digit c) with (Some k); cbv iota;
        rewrite <- IHd;
        apply (f_equal (fun a => Csv.digits a (NilEmpty.string_of_uint d))); lia
    end.
Qed.

Lemma digits_of_uint (d : Decimal.uint) :
  Csv.digits 0 (NilEmpty.string_of_uint d) = Some (Z.of_N (Pos.of_uint d)).
Proof.
  induction d; cbn [NilEmpty.string_of_uint Csv.digits Pos.of_uint];
    try reflexivity; try exact IHd;
    match goal with
    | |- context [Csv.digit ?c] =>
        let k := eval vm_compute in (Z.of_N (N_of_ascii c) - 48) in
        change (Csv.digit c) with (Some k); cbv iota;
        cbn [Z.of_N]; rewrite <- digits_of_uint_acc; reflexivity
    end.
Qed.

Lemma lstrip_digits (d : Decimal.uint) :
  Csv.lstrip (NilEmpty.string_of_uint d) = NilEmpty.string_of_uint d.
Proof. destruct d; reflexivity. Qed.

Lemma rstrip_digits (d : Decimal.uint) :
  Csv.rstrip (NilEmpty.string_of_uint d) = NilEmpty.string_of_uint d.
Proof.
  induction d; cbn [NilEmpty.string_of_uint Csv.rstrip]; try reflexivity;
    rewrite IHd; destruct (NilEmpty.string_of_uint d); reflexivity.
Qed.

Lemma numeral_to_uint (p : positive) :
  NilEmpty.string_of_uint (Pos.to_uint p) <> EmptyString
  /\ Csv.digits 0 (NilEmpty.string_of_uint (Pos.to_uint p)) = Some (Zpos p).
Proof.
  pose proof (DecimalPos.Unsigned.of_to p) as Hback.
  split.
  - destruct (Pos.to_uint p); cbn; discriminate.
  - rewrite digits_of_uint, Hback. reflexivity.
Qed.

Lemma decimal_of_positive (p : positive) :
  decimal (Zpos p) = NilEmpty.string_of_uint (Pos.to_uint p)
  /\ decimal (Zneg p) = String "-" (NilEmpty.string_of_uint (Pos.to_uint p)).
Proof.
  unfold decimal. cbn [Z.to_int NilZero.string_of_int NilZero.string_of_uint].
  pose proof (DecimalPos.Unsigned.of_to p) as Hback.
  destruct (Pos.to_uint p); try (split; reflexivity); cbn in Hback; discriminate.
Qed.

(** The text of an integer is read back as that integer. *)
Lemma signed_decimal (z : Z) : Csv.signed (Csv.rstrip (Csv.lstrip (decimal z))) = Some z.
Proof.
  destruct z as [|p|p].
  - reflexivity.
  - destruct (decimal_of_positive p) as [-> _].
    destruct (numeral_to_uint p) as [Hne Hdigits].
    rewrite lstrip_digits, rstrip_digits.
    unfold Csv.signed, Csv.numeral.
    destruct (NilEmpty.string_of_uint (Pos.to_uint p)) as [|c s] eqn:Htext;
      [contradiction|].
    assert (Hc : c <> "-"%char /\ c <> "+"%char).
    { destruct (Pos.to_uint p); cbn in Htext; inversion Htext; split; discriminate. }
    destruct Hc as [Hminus Hplus].
    destruct c as [[|] [|] [|] [|] [|] [|] [|] [|]]; try exact Hdigits;
      first [exfalso; apply Hminus; reflexivity | exfalso; apply Hplus; reflexivity].
  - destruct (decimal_of_positive p) as [_ ->].
    destruct (numeral_to_uint p) as [Hne Hdigits].
    assert (Hstrip : Csv.rstrip (Csv.lstrip (String "-" (NilEmpty.string_of_uint (Pos.to_uint p))))
                     = String "-" (NilEmpty.string_of_uint (Pos.to_uint p))).
    { cbn [Csv.lstrip]. change (Csv.is_blank "-") with false. cbv iota.
      cbn [Csv.rstrip]. rewrite rstrip_digits.
      destruct (NilEmpty.string_of_uint (Pos.to_uint p)); reflexivity. }
    rewrite Hstrip. unfold Csv.signed, Csv.numeral.
    destruct (NilEmpty.string_of_uint (Pos.to_uint p)) as [|c s] eqn:Htext;
      [contradiction|].
    rewrite Hdigits. reflexivity.
Qed.

(** X7.  An integer that fits [bigint], written to the batch file as
    Python prints it, is read back by COPY as the same integer; one that
    does not fit is refused. *)
Theorem written_integer_reads_back (z : Z) :
  Csv.int8in (decimal z)
  = if (- 2 ^ 63 <=? z) && (z <? 2 ^ 63) then Some z else None.
Proof.
  unfold Csv.int8in. rewrite signed_decimal. reflexivity.
Qed.

(** *** Readings: from feed item to raw row *)

Lemma earthquake_of_says (filename : string) (e : reading) (feature : json) :
  says e feature -> earthquake_of filename feature = Ok (dict_of filename e).
Proof.
  intros [members [props [geometry [more [-> [Hprops [Hgeo [Ht [Hp [Hm Hco]]]]]]]]]].
  unfold earthquake_of. cbn [getitem]. rewrite Hprops, Hgeo. cbn [Py.and_then getitem].
  rewrite Ht, Hp, Hm, Hco. reflexivity.
Qed.

Lemma for_features_says (filename : string) (readings : list reading) (features : list json) :
  Forall2 says readings features ->
  forall acc,
    for_features filename features acc
    = Ok (acc ++ map (dict_of filename) readings)%list.
Proof.
  induction 1 as [|e feature readings features Hsays _ IH]; intros acc; cbn [for_features map].
  - rewrite app_nil_r. reflexivity.
  - rewrite (earthquake_of_says filename e feature Hsays). cbn [Py.and_then].
    rewrite IH, <- app_assoc. reflexivity.
Qed.

Lemma dict_of_stamped (filename : string) (readings : list reading) :
  Forall (stamped filename) (map (dict_of filename) readings).
Proof.
  apply Forall_forall. intros d Hd. apply in_map_iff in Hd.
  destruct Hd as [e [<- _]]. split; reflexivity.
Qed.

Lemma DataFrame_values (ds : list dict) :
  values (DataFrame_of ds)
  = map (fun d => map (fun c => match lookup c d with
                                | Some v => v
                                | None => JNull
                                end) (columns (DataFrame_of ds))) ds.
Proof. reflexivity. Qed.

(** The data lines of the file written of a list of readings. *)
Lemma to_csv_of_readings (filename : string) (readings : list reading) :
  tl (to_csv (DataFrame_of (map (dict_of filename) readings)))
  = map (fun e => map cell (map snd (dict_of filename e))) readings.
Proof.
  destruct readings as [|e readings]; [reflexivity|].
  assert (Hcols : columns (DataFrame_of (map (dict_of filename) (e :: readings)))
                  = batch_columns)
    by exact (DataFrame_of_stamped filename _ _ (dict_of_stamped filename (e :: readings))).
  unfold to_csv. cbn [tl]. rewrite DataFrame_values, Hcols, !map_map.
  apply map_ext. intros a. reflexivity.
Qed.

Lemma cell_of_plain_float (x : float8) :
  plain_float x ->
  exists literal, x = Float8 literal /\ cell (JFloat x) = Some literal
                  /\ Csv.float8in literal = Some x.
Proof.
  destruct x as [literal]. intros [Hin Hnan]. exists literal.
  cbn [cell]. rewrite Hnan. repeat split. exact Hin.
Qed.

(** COPY reads the line of a plain reading as the reading's raw row. *)
Lemma copy_record_of_reading (filename : string) (c : ascii) (rest : string) (e : reading) :
  filename = String c rest ->
  plain e ->
  Csv.copy_record (map cell (map snd (dict_of filename e))) = Ok (raw_of filename e).
Proof.
  intros Hname [Htime [Hplace [_ [Hm [Hlo [Hla Hde]]]]]].
  destruct (cell_of_plain_float _ Hm) as [m [Hm1 [Hm2 Hm3]]].
  destruct (cell_of_plain_float _ Hlo) as [lo [Hlo1 [Hlo2 Hlo3]]].
  destruct (cell_of_plain_float _ Hla) as [la [Hla1 [Hla2 Hla3]]].
  destruct (cell_of_plain_float _ Hde) as [de [Hde1 [Hde2 Hde3]]].
  unfold dict_of, raw_of. cbn [map snd]. rewrite Hm2, Hlo2, Hla2, Hde2.
  assert (Hcell_place : cell (JStr (read_place e)) = Some (read_place e)).
  { destruct (read_place e); [contradiction | reflexivity]. }
  assert (Hcell_name : cell (JStr filename) = Some filename) by (rewrite Hname; reflexivity).
  rewrite Hcell_place, Hcell_name.
  change (cell (JInt (read_time e))) with (Some (decimal (read_time e))).
  unfold Csv.copy_record, Csv.nullable, Csv.int8in.
  rewrite signed_decimal.
  assert (Hfits : (- 2 ^ 63 <=? read_time e) && (read_time e <? 2 ^ 63) = true).
  { apply andb_true_iff. split; [apply Z.leb_le | apply Z.ltb_lt]; lia. }
  rewrite Hfits, Hm3, Hlo3, Hla3, Hde3. reflexivity.
Qed.

Lemma copy_records_of_readings (filename : string) (c : ascii) (rest : string)
      (readings : list reading) :
  filename = String c rest ->
  Forall plain readings ->
  Csv.copy_records (map (fun e => map cell (map snd (dict_of filename e))) readings)
  = Ok (map (raw_of filename) readings).
Proof.
  intros Hname. induction 1 as [|e readings He _ IH]; [reflexivity|].
  cbn [map Csv.copy_records].
  rewrite (copy_record_of_reading filename c rest e Hname He), IH. reflexivity.
Qed.

(** X8.  When the feed answers 200 with items that say plain readings
    (a time that fits [bigint]; a place that is not empty and holds ASCII
    characters only, no NUL and no carriage return among them; floats that
    COPY reads back as written), the run writes the day's batch, and a
    staging load of that batch that meets no failure puts in the raw table,
    after the rows of the other batches, one row per item, in the order of
    the feed, with the item's time, place, magnitude, longitude, latitude
    and depth and the batch path as filename. *)
Theorem feed_reaches_raw_table
        (w : world) (resp : response) (v : json)
        (features : list json) (readings : list reading)
        (db : Db) (tz : Sql.TimeZone) :
  answered w resp ->
  body resp = Some v ->
  status_code resp = 200 ->
  getitem v "features" = Ok (JArr features) ->
  Forall2 says readings features ->
  Forall plain readings ->
  fst (process_earthquake_data w) = Ok tt
  /\ LoadCsv.run (fs (snd (process_earthquake_data w))) (todays_batch w) db tz []
     = (with_batch (todays_batch w) (map (raw_of (todays_batch w)) readings) db, []).
Proof.
  intros Hfeed Hbody Hstatus Hfeatures Hsays Hplain.
  pose proof (for_features_says (todays_batch w) readings features Hsays []) as Hloop.
  cbn [app] in Hloop.
  destruct (process_on_feed w resp v features _ Hfeed Hbody Hstatus Hfeatures Hloop)
    as [out Hrun].
  rewrite Hrun. cbn [fst snd fs]. split; [reflexivity|].
  apply (load_run_reliable _ _ db tz
           (to_csv (DataFrame_of (map (dict_of (todays_batch w)) readings)))).
  - unfold Csv.write. rewrite String.eqb_refl. reflexivity.
  - unfold Csv.copy_header. rewrite to_csv_of_readings.
    exact (copy_records_of_readings (todays_batch w) "C"
             (String.append
                ":\Users\iyanu\Downloads\LEARNING DATA ANALYTICS\Data Pipelines Course\earthquake_"
                (Python.strftime "_" (now w) ++ ".csv"))
             readings eq_refl Hplain).
Qed.

Lemma feed_reaches_raw_table_witness :
  let w := More.world_on Sample.no_files
             (Sample.reply 200 [More.feature_of More.reading_example_town;
                                More.feature_of More.reading_fiji]) in
  fst (process_earthquake_data w) = Ok tt
  /\ LoadCsv.run (fs (snd (process_earthquake_data w))) (todays_batch w) Sample.db Sql.UTC []
     = (with_batch (todays_batch w)
          (map (raw_of (todays_batch w)) [More.reading_example_town; More.reading_fiji])
          Sample.db, []).
Proof.
  refine (feed_reaches_raw_table
            (More.world_on Sample.no_files
               (Sample.reply 200 [More.feature_of More.reading_example_town;
                                  More.feature_of More.reading_fiji]))
            (Sample.reply 200 [More.feature_of More.reading_example_town;
                               More.feature_of More.reading_fiji])
            _ _ [More.reading_example_town; More.reading_fiji] Sample.db Sql.UTC
            (answered_on _ _) eq_refl eq_refl eq_refl _ _).
  - repeat constructor; do 4 eexists; repeat split; reflexivity.
  - repeat constructor; vm_compute; first [reflexivity | discriminate].
Defined.

(** ** The staging load: what a run reports, and what it costs *)

(** With no failure in stock, a statement the store refuses raises the
    store's error and leaves the store as it was. *)
Lemma transact_refused (stmt : statement) (c : connection) (e : exn) :
  status c = Idle ->
  faults c = [] ->
  stmt (TimeZone c) (committed c) = Raise e ->
  exists c', transact stmt c = (Raise e, c') /\ committed c' = committed c.
Proof.
  destruct c as [db st tz fl]; cbn. intros Hidle Hfaults Hstmt. subst st fl.
  unfold transact, cursor, cursor_close, execute, commit, round_trip,
    set_status, view, Py.bind, Py.ret; cbn.
  rewrite Hstmt. eexists. split; reflexivity.
Qed.




Lemma nullable_error {A} (conv : string -> option A) (what : string)
      (f : Csv.field) (e : exn) :
  Csv.nullable conv what f = Raise e -> e = DataError what.
Proof.
  unfold Csv.nullable. destruct f as [text|]; [|discriminate].
  destruct (conv text); intros H; inversion H. reflexivity.
Qed.

Lemma copy_record_error (r : Csv.record) (e : exn) :
  Csv.copy_record r = Raise e -> exists message, e = DataError message.
Proof.
  unfold Csv.copy_record.
  destruct r as [|t [|p [|m [|lo [|la [|de [|fn [|extra more]]]]]]]];
    try (intros H; inversion H; eexists; reflexivity).
  intros H.
  repeat match type of H with
         | Py.and_then ?x _ = Raise e =>
             let E := fresh "E" in
             destruct x eqn:E; cbn [Py.and_then] in H;
             [| inversion H; subst; apply nullable_error in E; eexists; exact E]
         end.
  discriminate.
Qed.

Lemma copy_record_short (r : Csv.record) :
  List.length r <> 7%nat -> exists message, Csv.copy_record r = Raise (DataError message).
Proof.
  destruct r as [|t [|p [|m [|lo [|la [|de [|fn [|extra more]]]]]]]]; cbn; intros H;
    try (eexists; reflexivity).
  contradiction.
Qed.

(** COPY stops at the first line it cannot convert, and a line that has
    not seven fields is such a line. *)
Lemma copy_records_short (records : list Csv.record) (r : Csv.record) :
  In r records ->
  List.length r <> 7%nat ->
  exists message, Csv.copy_records records = Raise (DataError message).
Proof.
  intros Hin Hshort. induction records as [|r' rest IH]; [contradiction|].
  cbn [Csv.copy_records].
  destruct (Csv.copy_record r') as [row|e] eqn:Hrow; cbn [Py.and_then].
  - destruct Hin as [->|Hin].
    + destruct (copy_record_short r Hshort) as [message Hm]. rewrite Hm in Hrow. discriminate.
    + destruct (IH Hin) as [message ->]. exists message. reflexivity.
  - destruct (copy_record_error r' e Hrow) as [message ->]. exists message. reflexivity.
Qed.

(** X10.  COPY takes the batch file whole or not at all, and the delete
    is committed before it starts: when a data line of the file has not
    seven fields, and no line of the file is the end-of-data line (a
    backslash and a period alone, at which COPY would stop reading without
    an error), a load that meets no store failure ends with the batch's old
    rows deleted and not one row of the file inserted, the lines before the
    bad one included. *)
Theorem short_line_loses_the_batch
        (fs : Csv.filesystem) (k : string) (db : Db) (tz : Sql.TimeZone)
        (f : Csv.file) (r : Csv.record) :
  fs k = Some f ->
  ~ In end_of_data f ->
  In r (tl f) ->
  List.length r <> 7%nat ->
  exists message,
    LoadCsv.run fs k db tz []
    = (without_batch k db, [ErrorLine "An error occurred: " (DataError message)]).
Proof.
  intros Hf _ Hin Hshort.
  destruct (copy_records_short (tl f) r Hin Hshort) as [message Hcopy].
  exists message.
  unfold LoadCsv.run, LoadCsv.try_body, Py.bind.
  rewrite load_delete_is_transact.
  rewrite (transact_reliable _ (connect db tz []) (without_batch k db)) by reflexivity.
  rewrite load_insert_unfold, Hf.
  destruct (transact_refused (LoadCsv.sql f)
              {| committed := without_batch k db; status := Idle;
                 TimeZone := TimeZone (connect db tz []); faults := [] |}
              (DataError message) eq_refl eq_refl) as [c' [Hrun Hsame]].
  - unfold LoadCsv.sql, Csv.copy_header. cbn [committed TimeZone]. rewrite Hcopy. reflexivity.
  - rewrite Hrun. unfold close. rewrite Hsame. reflexivity.
Qed.

Lemma short_line_loses_the_batch_witness :
  exists message,
    LoadCsv.run More.bad_disk Sample.key Sample.db Sql.UTC []
    = ({| earthquake := [Sample.yesterday];
          stage_earthquake := stage_earthquake Sample.db |},
       [ErrorLine "An error occurred: " (DataError message)]).
Proof.
  refine (short_line_loses_the_batch More.bad_disk Sample.key Sample.db Sql.UTC
            More.short_line_file [Some "1700000360000"; Some "Fiji region"]
            eq_refl _ _ _).
  - intros Hin. repeat (destruct Hin as [Hin|Hin]; [discriminate Hin|]). exact Hin.
  - right. left. reflexivity.
  - discriminate.
Defined.

(** *** Two batches *)

Lemma other_key_of_batch (k k' : string) (r : Raw.row) :
  of_batch k r -> k <> k' -> other_key k' r = true /\ has_key k' r = false.
Proof.
  intros Hr Hne. unfold other_key, has_key. rewrite Hr. cbn.
  apply String.eqb_neq in Hne. rewrite Hne. split; reflexivity.
Qed.

Lemma filter_filter_swap {A} (p q : A -> bool) (l : list A) :
  filter p (filter q l) = filter q (filter p l).
Proof.
  induction l as [|a l IH]; [reflexivity|]. cbn.
  destruct (p a) eqn:Hp, (q a) eqn:Hq; cbn; rewrite ?Hp, ?Hq, IH; reflexivity.
Qed.

(** X11.  Staging loads of two different batches, each of a file whose
    rows carry its key, do not disturb each other: done in either order,
    with no failure on the way, they leave the same rows in the raw table
    (in another order), and each batch has exactly its file's rows. *)
Theorem loads_of_two_batches_commute
        (fs : Csv.filesystem) (k1 k2 : string) (db : Db) (tz : Sql.TimeZone)
        (f1 f2 : Csv.file) (rows1 rows2 : list Raw.row) :
  k1 <> k2 ->
  fs k1 = Some f1 -> Csv.copy_header f1 = Ok rows1 -> Forall (of_batch k1) rows1 ->
  fs k2 = Some f2 -> Csv.copy_header f2 = Ok rows2 -> Forall (of_batch k2) rows2 ->
  let first1 := fst (LoadCsv.run fs k2 (fst (LoadCsv.run fs k1 db tz [])) tz []) in
  let first2 := fst (LoadCsv.run fs k1 (fst (LoadCsv.run fs k2 db tz [])) tz []) in
  Permutation (earthquake first1) (earthquake first2)
  /\ stage_earthquake first1 = stage_earthquake first2
  /\ count_key k1 (earthquake first1) = List.length rows1
  /\ count_key k2 (earthquake first1) = List.length rows2.
Proof.
  intros Hne Hf1 Hrows1 Hkey1 Hf2 Hrows2 Hkey2 first1 first2. subst first1 first2.
  rewrite (load_run_reliable fs k1 db tz f1 rows1 Hf1 Hrows1).
  rewrite (load_run_reliable fs k2 db tz f2 rows2 Hf2 Hrows2). cbn [fst].
  rewrite (load_run_reliable fs k2 _ tz f2 rows2 Hf2 Hrows2).
  rewrite (load_run_reliable fs k1 _ tz f1 rows1 Hf1 Hrows1). cbn [fst].
  unfold with_batch. cbn [earthquake stage_earthquake].
  assert (H12 : Forall (fun r => other_key k2 r = true /\ has_key k2 r = false) rows1).
  { apply Forall_forall. intros r Hr.
    exact (other_key_of_batch k1 k2 r (proj1 (Forall_forall _ _) Hkey1 r Hr) Hne). }
  assert (H21 : Forall (fun r => other_key k1 r = true /\ has_key k1 r = false) rows2).
  { apply Forall_forall. intros r Hr.
    exact (other_key_of_batch k2 k1 r (proj1 (Forall_forall _ _) Hkey2 r Hr)
             (fun H => Hne (eq_sym H))). }
  assert (Hk1 : Forall (fun r => has_key k1 r = true) rows1).
  { apply Forall_forall. intros r Hr. apply has_key_of_filename.
    exact (proj1 (Forall_forall _ _) Hkey1 r Hr). }
  assert (Hk2 : Forall (fun r => has_key k2 r = true) rows2).
  { apply Forall_forall. intros r Hr. apply has_key_of_filename.
    exact (proj1 (Forall_forall _ _) Hkey2 r Hr). }
  assert (Hkeep1 : filter (other_key k2) rows1 = rows1).
  { apply (filter_all (other_key k2)).
    eapply Forall_impl; [|exact H12]. intros r [H _]. exact H. }
  assert (Hkeep2 : filter (other_key k1) rows2 = rows2).
  { apply (filter_all (other_key k1)).
    eapply Forall_impl; [|exact H21]. intros r [H _]. exact H. }
  assert (Hnone12 : filter (has_key k2) rows1 = []).
  { apply (filter_none (has_key k2) (other_key k2)).
    - intros a. unfold other_key. rewrite negb_involutive. reflexivity.
    - eapply Forall_impl; [|exact H12]. intros r [H _]. exact H. }
  assert (Hnone21 : filter (has_key k1) rows2 = []).
  { apply (filter_none (has_key k1) (other_key k1)).
    - intros a. unfold other_key. rewrite negb_involutive. reflexivity.
    - eapply Forall_impl; [|exact H21]. intros r [H _]. exact H. }
  rewrite !filter_app, Hkeep1, Hkeep2.
  rewrite (filter_filter_swap (other_key k1) (other_key k2)).
  repeat split.
  - rewrite <- !app_assoc. apply Permutation_app_head. apply Permutation_app_comm.
  - unfold count_key. rewrite !filter_app.
    rewrite (filter_filter_swap (has_key k1) (other_key k2)).
    rewrite (filter_dropped_of_kept (other_key k1) (has_key k1) (fun _ => eq_refl)).
    rewrite (filter_all (has_key k1) rows1 Hk1), Hnone21.
    cbn [filter app]. rewrite app_nil_r. reflexivity.
  - unfold count_key. rewrite !filter_app.
    rewrite (filter_dropped_of_kept (other_key k2) (has_key k2) (fun _ => eq_refl)).
    rewrite (filter_all (has_key k2) rows2 Hk2), Hnone12.
    reflexivity.
Qed.

Lemma loads_of_two_batches_commute_witness :
  let first1 :=
    fst (LoadCsv.run More.two_batches Sample.other
           (fst (LoadCsv.run More.two_batches Sample.key Sample.db Sql.UTC [])) Sql.UTC []) in
  let first2 :=
    fst (LoadCsv.run More.two_batches Sample.key
           (fst (LoadCsv.run More.two_batches Sample.other Sample.db Sql.UTC [])) Sql.UTC []) in
  Permutation (earthquake first1) (earthquake first2)
  /\ stage_earthquake first1 = stage_earthquake first2
  /\ count_key Sample.key (earthquake first1) = 2%nat
  /\ count_key Sample.other (earthquake first1) = 1%nat.
Proof.
  refine (loads_of_two_batches_commute More.two_batches Sample.key Sample.other
            Sample.db Sql.UTC Sample.batch_file More.other_file _ _
            _ eq_refl eq_refl _ eq_refl eq_refl _).
  - discriminate.
  - repeat constructor.
  - repeat constructor.
Defined.

(** ** The window transform: what a run reports, and what it reaches *)

(** Whatever the SELECT returns, it returns for rows inside the window. *)
Lemma select_in_window (tz : Sql.TimeZone) (s e : Sql.date) (rows : list Raw.row)
      (facts : list Fact.row) :
  TransformEarthquake.select tz s e rows = Ok facts ->
  Forall (fun f => fact_in_window s e f = true) facts.
Proof.
  revert facts. induction rows as [|r rows IH]; cbn; intros facts H.
  - inversion H. constructor.
  - unfold TransformEarthquake.where_clause, TransformEarthquake.select_list in H.
    destruct (TransformEarthquake.event_date tz r) as [d|] eqn:Hd; cbn in H; [|discriminate].
    destruct (TransformEarthquake.select tz s e rows) as [there|]; cbn in H.
    + destruct (Sql.is_true (Sql.between d (Some s) (Some e))) eqn:Hin; cbn in H.
      * destruct (TransformEarthquake.event_timestamp r); cbn in H; [|discriminate].
        inversion H; subst. constructor; [exact Hin | apply IH; reflexivity].
      * inversion H; subst. apply IH. reflexivity.
    + destruct (Sql.is_true (Sql.between d (Some s) (Some e))); cbn in H;
        [destruct (TransformEarthquake.event_timestamp r); cbn in H|]; discriminate.
Qed.

(** The three ways a window transform can end, with what it prints. *)
Lemma transform_run_report (s e : Sql.date) (db : Db) (tz : Sql.TimeZone)
      (failures : list bool) :
  (exists x, TransformEarthquake.run s e db tz failures
             = (db, [ErrorLine "An error occurred: " x]))
  \/ (exists x, TransformEarthquake.run s e db tz failures
                = (without_window s e db, [ErrorLine "An error occurred: " x]))
  \/ (exists facts,
         TransformEarthquake.select tz s e (earthquake db) = Ok facts
         /\ TransformEarthquake.run s e db tz failures
            = ({| earthquake := earthquake db;
                  stage_earthquake :=
                    (filter (outside_window s e) (stage_earthquake db) ++ facts)%list |},
               loaded_message)).
Proof.
  unfold TransformEarthquake.run, TransformEarthquake.try_body, Py.bind.
  destruct (TransformEarthquake.delete_old_records s e (connect db tz failures))
    as [r c1] eqn:Hdel.
  destruct (transform_delete_outcome s e (connect db tz failures) r c1 eq_refl Hdel)
    as [Htz [[Hr [Hidle Hc1]] | [[x Hr] Hc1]]]; subst r; cbv beta iota.
  - destruct (TransformEarthquake.transform_earthquake s e c1) as [r c2] eqn:Hins.
    destruct (transform_insert_outcome s e c1 r c2 Hidle Hins)
      as [[Hr [facts [Hsel Hc2]]] | [[x Hr] Hc2]]; subst r;
      cbv beta iota; cbn [Py.ret]; unfold close.
    + right; right. exists facts. rewrite Htz, Hc1 in Hsel. split; [exact Hsel|].
      rewrite Hc2, Hc1. reflexivity.
    + right; left. exists x. rewrite Hc2, Hc1. reflexivity.
  - left. exists x. unfold close. rewrite Hc1. reflexivity.
Qed.

(** X12.  A run of the transform that prints "Data loaded successfully"
    has committed both steps: the fact table holds the facts that were
    outside the window followed by what the SELECT returned.  A run that
    prints an error has left the fact table as it was, or without the
    window's facts and with no new one. *)
Theorem transform_report_tells_outcome
        (s e : Sql.date) (db : Db) (tz : Sql.TimeZone) (failures : list bool) :
  (snd (TransformEarthquake.run s e db tz failures) = loaded_message ->
   exists facts,
     TransformEarthquake.select tz s e (earthquake db) = Ok facts
     /\ fst (TransformEarthquake.run s e db tz failures)
        = {| earthquake := earthquake db;
             stage_earthquake :=
               (filter (outside_window s e) (stage_earthquake db) ++ facts)%list |})
  /\ (snd (TransformEarthquake.run s e db tz failures) <> loaded_message ->
      (exists x, snd (TransformEarthquake.run s e db tz failures)
                 = [ErrorLine "An error occurred: " x])
      /\ (fst (TransformEarthquake.run s e db tz failures) = db
          \/ fst (TransformEarthquake.run s e db tz failures) = without_window s e db)).
Proof.
  destruct (transform_run_report s e db tz failures)
    as [[x Hrun] | [[x Hrun] | [facts [Hsel Hrun]]]]; rewrite Hrun; cbn [fst snd];
    split; intros H; try discriminate; try contradiction.
  - split; [exists x; reflexivity | left; reflexivity].
  - split; [exists x; reflexivity | right; reflexivity].
  - exists facts. split; [exact Hsel | reflexivity].
Qed.

Lemma transform_report_tells_outcome_witness :
  (exists facts,
      TransformEarthquake.select Sql.UTC Sample.window_start Sample.window_end
                                 (earthquake Sample.db) = Ok facts
      /\ fst (TransformEarthquake.run Sample.window_start Sample.window_end
                                      Sample.db Sql.UTC [])
         = {| earthquake := earthquake Sample.db;
              stage_earthquake :=
                (filter (outside_window Sample.window_start Sample.window_end)
                        (stage_earthquake Sample.db) ++ facts)%list |})
  /\ (fst (TransformEarthquake.run Sample.window_start Sample.window_end
                                   Sample.db Sql.UTC [false; true]) = Sample.db
      \/ fst (TransformEarthquake.run Sample.window_start Sample.window_end
                                      Sample.db Sql.UTC [false; true])
         = without_window Sample.window_start Sample.window_end Sample.db).
Proof.
  split.
  - exact (proj1 (transform_report_tells_outcome
                    Sample.window_start Sample.window_end Sample.db Sql.UTC [])
                 eq_refl).
  - refine (proj2 (proj2 (transform_report_tells_outcome
                            Sample.window_start Sample.window_end Sample.db Sql.UTC
                            [false; true]) _)).
    discriminate.
Defined.

(** X13.  Whatever way a window transform ends, the facts dated outside
    the window, and those without a date, are what they were, in their
    order: the delete is scoped to the window and the insert adds facts of
    the window only. *)
Theorem transform_keeps_facts_outside_window
        (s e : Sql.date) (db : Db) (tz : Sql.TimeZone) (failures : list bool) :
  filter (outside_window s e)
         (stage_earthquake (fst (TransformEarthquake.run s e db tz failures)))
  = filter (outside_window s e) (stage_earthquake db).
Proof.
  destruct (transform_run_outcome s e db tz failures)
    as [Hsame | [Hdel | [facts [Hsel Hboth]]]].
  - rewrite Hsame. reflexivity.
  - rewrite Hdel. cbn [stage_earthquake without_window]. apply filter_kept_again.
  - rewrite Hboth. cbn [stage_earthquake].
    rewrite filter_app, filter_kept_again.
    rewrite (filter_none (outside_window s e) (fact_in_window s e) (fun _ => eq_refl)
               facts (select_in_window tz s e _ facts Hsel)).
    apply app_nil_r.
Qed.

(** X14.  After a transform that met no failure, over raw rows whose times
    are in range, the facts of the window are exactly the rows derived from
    the raw rows whose date falls in the window, in the order of the raw
    table. *)
Theorem window_holds_the_derived_rows
        (s e : Sql.date) (db : Db) (tz : Sql.TimeZone) :
  Forall timestamp_ok (earthquake db) ->
  filter (fact_in_window s e)
         (stage_earthquake (fst (TransformEarthquake.run s e db tz [])))
  = map (derived tz) (filter (raw_in_window tz s e) (earthquake db)).
Proof.
  intros Hok. rewrite (transform_run_reliable s e db tz Hok). cbn [fst].
  unfold with_window. cbn [stage_earthquake].
  rewrite filter_app.
  rewrite (filter_dropped_of_kept (outside_window s e) (fact_in_window s e) (fun _ => eq_refl)).
  apply (filter_all (fact_in_window s e)). apply derived_in_window.
Qed.

Lemma window_holds_the_derived_rows_witness :
  filter (fact_in_window Sample.window_start Sample.window_end)
         (stage_earthquake
            (fst (TransformEarthquake.run Sample.window_start Sample.window_end
                                          Sample.db Sql.UTC [])))
  = [Sample.fact 1700000000 19675 "Example Town"; Sample.fact 1700000000 19675 "ji region"].
Proof.
  refine (window_holds_the_derived_rows Sample.window_start Sample.window_end
            Sample.db Sql.UTC _).
  repeat constructor; vm_compute; first [reflexivity | discriminate].
Defined.

Lemma reversed_window_is_empty (s e : Sql.date) (d : option Sql.date) :
  e < s -> in_window s e d = false.
Proof.
  intros Hrev. unfold in_window, Sql.between. destruct d as [v|]; [|reflexivity].
  cbn. destruct (Z.leb_spec s v); [|reflexivity].
  destruct (Z.leb_spec v e); [lia | reflexivity].
Qed.

(** X15.  A window whose end is before its start is empty: whatever way
    the run ends, the store is what it was. *)
Theorem reversed_window_changes_nothing
        (s e : Sql.date) (db : Db) (tz : Sql.TimeZone) (failures : list bool) :
  e < s ->
  fst (TransformEarthquake.run s e db tz failures) = db.
Proof.
  intros Hrev.
  assert (Hkeep : filter (outside_window s e) (stage_earthquake db) = stage_earthquake db).
  { apply (filter_all (outside_window s e)). apply Forall_forall. intros f _.
    unfold outside_window, fact_in_window. rewrite (reversed_window_is_empty s e _ Hrev).
    reflexivity. }
  destruct (transform_run_outcome s e db tz failures)
    as [Hsame | [Hdel | [facts [Hsel Hboth]]]].
  - exact Hsame.
  - rewrite Hdel. unfold without_window. rewrite Hkeep. destruct db; reflexivity.
  - rewrite Hboth, Hkeep.
    pose proof (select_in_window tz s e _ facts Hsel) as Hin.
    destruct facts as [|f facts].
    + rewrite app_nil_r. destruct db; reflexivity.
    + inversion Hin as [|? ? Hf _]; subst. unfold fact_in_window in Hf.
      rewrite (reversed_window_is_empty s e _ Hrev) in Hf. discriminate.
Qed.

Lemma reversed_window_changes_nothing_witness :
  fst (TransformEarthquake.run Sample.window_end Sample.window_start Sample.db Sql.UTC [])
  = Sample.db.
Proof.
  refine (reversed_window_changes_nothing Sample.window_end Sample.window_start
            Sample.db Sql.UTC [] _).
  vm_compute. reflexivity.
Defined.

(** *** A time the store has no timestamp for *)

Lemma event_timestamp_cases (r : Raw.row) :
  (timestamp_ok r /\ TransformEarthquake.event_timestamp r = Ok (epoch_seconds r))
  \/ (~ timestamp_ok r
      /\ TransformEarthquake.event_timestamp r = Raise (DataError "timestamp out of range")).
Proof.
  unfold timestamp_ok, epoch_seconds, TransformEarthquake.event_timestamp, Sql.int8div,
    Sql.to_timestamp.
  destruct (Raw.time r) as [t|]; [|left; split; [exact I | reflexivity]].
  cbn [option_map Py.and_then Z.eqb].
  destruct (Z.ltb_spec (t ÷ 1000)
              (Sql.SECS_PER_DAY * (Sql.DATETIME_MIN_JULIAN - Sql.UNIX_EPOCH_JDATE)))
    as [Hlow|Hlow]; cbn [orb].
  - right. split; [lia | reflexivity].
  - destruct (Z.leb_spec
                (Sql.SECS_PER_DAY * (Sql.TIMESTAMP_END_JULIAN - Sql.UNIX_EPOCH_JDATE))
                (t ÷ 1000)) as [Hhigh|Hhigh].
    + right. split; [lia | reflexivity].
    + left. split; [lia | reflexivity].
Qed.

(** The SELECT evaluates the time of every raw row, in the window or not. *)
Lemma select_refuses (tz : Sql.TimeZone) (s e : Sql.date) (rows : list Raw.row)
      (r : Raw.row) :
  In r rows ->
  ~ timestamp_ok r ->
  TransformEarthquake.select tz s e rows = Raise (DataError "timestamp out of range").
Proof.
  intros Hin Hbad. induction rows as [|r' rest IH]; [contradiction|].
  cbn [TransformEarthquake.select].
  destruct (event_timestamp_cases r') as [[Hok Hts] | [_ Hts]].
  - rewrite (where_clause_ok tz s e r' Hok). cbn [Py.and_then].
    rewrite (select_list_ok tz r' Hok).
    destruct Hin as [->|Hin]; [contradiction|].
    rewrite (IH Hin).
    destruct (Sql.is_true (Sql.between (derived_date tz r') (Some s) (Some e))); reflexivity.
  - unfold TransformEarthquake.where_clause, TransformEarthquake.event_date.
    rewrite Hts. reflexivity.
Qed.

(** X16.  One raw row whose time is beyond the store's timestamps makes
    the transform of every window fail, the windows the row is not in
    included; with no store failure on the way the run ends with the
    window's facts deleted and none inserted. *)
Theorem out_of_range_time_fails_every_window
        (s e : Sql.date) (db : Db) (tz : Sql.TimeZone) (r : Raw.row) :
  In r (earthquake db) ->
  ~ timestamp_ok r ->
  TransformEarthquake.run s e db tz []
  = (without_window s e db,
     [ErrorLine "An error occurred: " (DataError "timestamp out of range")]).
Proof.
  intros Hin Hbad.
  unfold TransformEarthquake.run, TransformEarthquake.try_body, Py.bind.
  rewrite transform_delete_is_transact.
  rewrite (transact_reliable _ (connect db tz []) (without_window s e db)) by reflexivity.
  rewrite transform_insert_is_transact.
  destruct (transact_refused (TransformEarthquake.sql s e)
              {| committed := without_window s e db; status := Idle;
                 TimeZone := TimeZone (connect db tz []); faults := [] |}
              (DataError "timestamp out of range") eq_refl eq_refl) as [c' [Hrun Hsame]].
  - unfold TransformEarthquake.sql. cbn [committed TimeZone earthquake without_window connect].
    rewrite (select_refuses tz s e (earthquake db) r Hin Hbad). reflexivity.
  - rewrite Hrun. unfold close. rewrite Hsame. reflexivity.
Qed.

Lemma out_of_range_time_fails_every_window_witness :
  TransformEarthquake.run More.september_start More.september_end
                          More.db_far_future Sql.UTC []
  = ({| earthquake := earthquake More.db_far_future;
        stage_earthquake := [Sample.fact 1700000000 19675 "Example Town"] |},
     [ErrorLine "An error occurred: " (DataError "timestamp out of range")]).
Proof.
  refine (out_of_range_time_fails_every_window More.september_start More.september_end
            More.db_far_future Sql.UTC More.far_future _ _).
  - right. left. reflexivity.
  - vm_compute. intros [_ H]. discriminate H.
Defined.

(** *** Two windows *)

Lemma before_window_is_outside (s1 e1 s2 e2 : Sql.date) (f : Fact.row) :
  e1 < s2 ->
  (fact_in_window s1 e1 f = true -> outside_window s2 e2 f = true)
  /\ (fact_in_window s2 e2 f = true -> outside_window s1 e1 f = true).
Proof.
  intros Hapart. unfold outside_window, fact_in_window, in_window, Sql.between.
  destruct (Fact.dt f) as [d|]; cbn; [|split; discriminate].
  destruct (Z.leb_spec s1 d), (Z.leb_spec d e1), (Z.leb_spec s2 d), (Z.leb_spec d e2);
    cbn; split; intros Hin; try reflexivity; try discriminate; lia.
Qed.

(** X17.  Transforms of two windows that do not overlap do not disturb
    each other: done in either order, with no failure on the way and raw
    times in range, they leave the same facts in the fact table (in another
    order). *)
Theorem transforms_of_two_windows_commute
        (s1 e1 s2 e2 : Sql.date) (db : Db) (tz : Sql.TimeZone) :
  e1 < s2 ->
  Forall timestamp_ok (earthquake db) ->
  let first1 :=
    fst (TransformEarthquake.run s2 e2
           (fst (TransformEarthquake.run s1 e1 db tz [])) tz []) in
  let first2 :=
    fst (TransformEarthquake.run s1 e1
           (fst (TransformEarthquake.run s2 e2 db tz [])) tz []) in
  Permutation (stage_earthquake first1) (stage_earthquake first2)
  /\ earthquake first1 = earthquake first2.
Proof.
  intros Hapart Hok first1 first2. subst first1 first2.
  rewrite (transform_run_reliable s1 e1 db tz Hok).
  rewrite (transform_run_reliable s2 e2 db tz Hok). cbn [fst].
  rewrite (transform_run_reliable s2 e2 (with_window tz s1 e1 db) tz Hok).
  rewrite (transform_run_reliable s1 e1 (with_window tz s2 e2 db) tz Hok). cbn [fst].
  unfold with_window. cbn [earthquake stage_earthquake].
  split; [|reflexivity].
  assert (Hkeep1 : forall rows,
             filter (outside_window s2 e2)
                    (map (derived tz) (filter (raw_in_window tz s1 e1) rows))
             = map (derived tz) (filter (raw_in_window tz s1 e1) rows)).
  { intros rows. apply (filter_all (outside_window s2 e2)).
    eapply Forall_impl; [|apply derived_in_window].
    intros f. exact (proj1 (before_window_is_outside s1 e1 s2 e2 f Hapart)). }
  assert (Hkeep2 : forall rows,
             filter (outside_window s1 e1)
                    (map (derived tz) (filter (raw_in_window tz s2 e2) rows))
             = map (derived tz) (filter (raw_in_window tz s2 e2) rows)).
  { intros rows. apply (filter_all (outside_window s1 e1)).
    eapply Forall_impl; [|apply derived_in_window].
    intros f. exact (proj2 (before_window_is_outside s1 e1 s2 e2 f Hapart)). }
  rewrite !filter_app, Hkeep1, Hkeep2.
  rewrite (filter_filter_swap (outside_window s1 e1) (outside_window s2 e2)).
  rewrite <- !app_assoc. apply Permutation_app_head. apply Permutation_app_comm.
Qed.

Lemma transforms_of_two_windows_commute_witness :
  let first1 :=
    fst (TransformEarthquake.run Sample.window_start Sample.window_end
           (fst (TransformEarthquake.run More.september_start More.september_end
                                         Sample.db Sql.UTC [])) Sql.UTC []) in
  let first2 :=
    fst (TransformEarthquake.run More.september_start More.september_end
           (fst (TransformEarthquake.run Sample.window_start Sample.window_end
                                         Sample.db Sql.UTC [])) Sql.UTC []) in
  Permutation (stage_earthquake first1) (stage_earthquake first2)
  /\ earthquake first1 = earthquake first2.
Proof.
  refine (transforms_of_two_windows_commute
            More.september_start More.september_end
            Sample.window_start Sample.window_end Sample.db Sql.UTC _ _).
  - vm_compute. reflexivity.
  - repeat constructor; vm_compute; first [reflexivity | discriminate].
Defined.

(** ** The derived fields at their edges *)

(** X18.  The place of a derived fact row never starts and never ends with
    a space, whatever the raw place was. *)
Theorem cleaned_place_has_no_outer_space
        (tz : Sql.TimeZone) (r : Raw.row) (f : Fact.row) (q : string) :
  TransformEarthquake.select_list tz r = Ok f ->
  Fact.place f = Some q ->
  ~ starts_with_space q /\ ~ ends_with_space q.
Proof.
  intros Hrow Hplace. rewrite (select_list_place tz r f Hrow) in Hplace.
  destruct (Raw.place r) as [p|]; [|discriminate].
  rewrite clean_place_unfold in Hplace. inversion Hplace; subst q. unfold trimmed.
  split.
  - apply rtrim_starts_as_given, ltrim_no_leading_space.
  - apply rtrim_no_trailing_space.
Qed.

Lemma cleaned_place_has_no_outer_space_witness :
  ~ starts_with_space "Somewhere" /\ ~ ends_with_space "Somewhere".
Proof.
  exact (cleaned_place_has_no_outer_space Sql.UTC
           (Sample.raw 1700000000000 "12km of   Somewhere  " Sample.key)
           (derived Sql.UTC (Sample.raw 1700000000000 "12km of   Somewhere  " Sample.key))
           "Somewhere" eq_refl eq_refl).
Defined.

(** X19.  The seconds of a derived timestamp are the time's milliseconds
    cut toward zero: a time at or after the epoch falls in the second that
    starts at the timestamp, a time before the epoch in the second that ends
    at it.  So the last second before the epoch is dated 1970-01-01 on a
    clock on UTC. *)
Theorem derived_seconds_are_cut_toward_zero
        (tz : Sql.TimeZone) (r : Raw.row) (t : Z) :
  Raw.time r = Some t ->
  timestamp_ok r ->
  exists f seconds,
    TransformEarthquake.select_list tz r = Ok f
    /\ Fact.ts f = Some seconds
    /\ (0 <= t -> 1000 * seconds <= t < 1000 * seconds + 1000)
    /\ (t <= 0 -> 1000 * seconds - 1000 < t <= 1000 * seconds)
    /\ (- 1000 < t < 0 -> tz 0 = 0 -> Fact.dt f = Some (Sql.days_from_civil 1970 1 1)).
Proof.
  intros Htime Hok. exists (derived tz r), (t ÷ 1000).
  split; [exact (select_list_ok tz r Hok)|].
  unfold derived, derived_date, epoch_seconds. rewrite Htime. cbn [Fact.ts Fact.dt option_map].
  split; [reflexivity|].
  split; [|split].
  - intros Hpos. Z.quot_rem_to_equations. lia.
  - intros Hneg. Z.quot_rem_to_equations. lia.
  - intros Hlast Hutc.
    assert (Hzero : t ÷ 1000 = 0) by (Z.quot_rem_to_equations; lia).
    rewrite Hzero, Hutc. reflexivity.
Qed.

Lemma derived_seconds_are_cut_toward_zero_witness :
  exists f seconds,
    TransformEarthquake.select_list Sql.UTC (Sample.raw (-1) "12km of Somewhere" Sample.key)
    = Ok f
    /\ Fact.ts f = Some seconds
    /\ (0 <= -1 -> 1000 * seconds <= -1 < 1000 * seconds + 1000)
    /\ (-1 <= 0 -> 1000 * seconds - 1000 < -1 <= 1000 * seconds)
    /\ (- 1000 < -1 < 0 -> Sql.UTC 0 = 0 -> Fact.dt f = Some (Sql.days_from_civil 1970 1 1)).
Proof.
  refine (derived_seconds_are_cut_toward_zero Sql.UTC
            (Sample.raw (-1) "12km of Somewhere" Sample.key) (-1) eq_refl _).
  vm_compute. split; [discriminate | reflexivity].
Defined.

(** ** Rows the deletes cannot reach *)

Lemma nameless_is_other (k : string) (r : Raw.row) :
  without_filename r -> other_key k r = true.
Proof. intros H. unfold other_key, has_key. rewrite H. reflexivity. Qed.

Lemma dateless_is_outside (s e : Sql.date) (f : Fact.row) :
  without_date f -> outside_window s e f = true.
Proof. intros H. unfold outside_window, fact_in_window. rewrite H. reflexivity. Qed.

(** X20.  A raw row without filename is in the raw table after every
    staging load, whatever the batch key and whatever way the load ends; a
    fact without date is in the fact table after every window transform,
    whatever the window.  No run of the two scripts removes them. *)
Theorem rows_without_key_are_never_deleted :
  (forall fs k db tz failures r,
      without_filename r ->
      In r (earthquake db) ->
      In r (earthquake (fst (LoadCsv.run fs k db tz failures))))
  /\ (forall s e db tz failures f,
         without_date f ->
         In f (stage_earthquake db) ->
         In f (stage_earthquake (fst (TransformEarthquake.run s e db tz failures)))).
Proof.
  split.
  - intros fs k db tz failures r Hnull Hin.
    assert (Hkept : In r (filter (other_key k) (earthquake db))).
    { apply filter_In. split; [exact Hin | exact (nameless_is_other k r Hnull)]. }
    destruct (load_run_outcome fs k db tz failures)
      as [Hsame | [Hdel | [f [rows [_ [_ Hboth]]]]]].
    + rewrite Hsame. exact Hin.
    + rewrite Hdel. exact Hkept.
    + rewrite Hboth. cbn [earthquake with_batch]. apply in_or_app. left. exact Hkept.
  - intros s e db tz failures f Hnull Hin.
    assert (Hkept : In f (filter (outside_window s e) (stage_earthquake db))).
    { apply filter_In. split; [exact Hin | exact (dateless_is_outside s e f Hnull)]. }
    destruct (transform_run_outcome s e db tz failures)
      as [Hsame | [Hdel | [facts [_ Hboth]]]].
    + rewrite Hsame. exact Hin.
    + rewrite Hdel. exact Hkept.
    + rewrite Hboth. cbn [stage_earthquake]. apply in_or_app. left. exact Hkept.
Qed.

Lemma rows_without_key_are_never_deleted_witness :
  In More.nameless
     (earthquake (fst (LoadCsv.run Sample.disk Sample.key More.db_with_nulls Sql.UTC [])))
  /\ In More.dateless
        (stage_earthquake
           (fst (TransformEarthquake.run Sample.window_start Sample.window_end
                                         More.db_with_nulls Sql.UTC []))).
Proof.
  split.
  - refine (proj1 rows_without_key_are_never_deleted
              Sample.disk Sample.key More.db_with_nulls Sql.UTC [] More.nameless eq_refl _).
    left. reflexivity.
  - refine (proj2 rows_without_key_are_never_deleted
              Sample.window_start Sample.window_end More.db_with_nulls Sql.UTC []
              More.dateless eq_refl _).
    left. reflexivity.
Defined.

(** ** Running the fetch again *)

(** A run leaves the clock and the network alone; its outcome depends on
    nothing else, and two runs on the same clock and network either both
    write the same batch or both leave the disk as it is. *)
Lemma process_depends_on_clock_and_network (w w' : world) :
  now w' = now w ->
  network w' = network w ->
  now (snd (process_earthquake_data w)) = now w
  /\ network (snd (process_earthquake_data w)) = network w
  /\ fst (process_earthquake_data w') = fst (process_earthquake_data w)
  /\ (fs (snd (process_earthquake_data w')) (todays_batch w)
      = fs (snd (process_earthquake_data w)) (todays_batch w)
      \/ (fs (snd (process_earthquake_data w')) = fs w'
          /\ fs (snd (process_earthquake_data w)) = fs w)).
Proof.
  intros Hnow Hnet.
  unfold process_earthquake_data, todays_batch. py_step. rewrite Hnow, Hnet.
  destruct (minus_days (now w) 15) as [ago|]; py_step;
    [|repeat split; right; split; reflexivity].
  destruct (network w _) as [resp|]; py_step; [|repeat split; right; split; reflexivity].
  destruct (response_json resp) as [v|]; py_step;
    [|repeat split; right; split; reflexivity].
  destruct (status_code resp =? 200); py_step;
    [|repeat split; right; split; reflexivity].
  destruct (getitem v "features") as [features|]; py_step;
    [|repeat split; right; split; reflexivity].
  destruct (iter features) as [items|]; py_step;
    [|repeat split; right; split; reflexivity].
  destruct (for_features _ items []) as [earthquakes|]; py_step;
    [|repeat split; right; split; reflexivity].
  unfold Csv.exists_.
  destruct (fs w _) eqn:Hthere, (fs w' _) eqn:Hthere'; py_step;
    rewrite ?Hthere, ?Hthere'; py_step;
    repeat split; left; cbn [snd fs]; unfold Csv.write; rewrite String.eqb_refl;
    reflexivity.
Qed.

(** X22.  Running the fetch again on the same day, the feed giving the
    same answers, ends the same way and leaves the disk as the first run
    left it: the day's batch is replaced by an equal one, never added
    to. *)
Theorem fetch_again_changes_nothing (w : world) (path : string) :
  let first := process_earthquake_data w in
  let second := process_earthquake_data (snd first) in
  fst second = fst first
  /\ fs (snd second) path = fs (snd first) path.
Proof.
  intros first second. subst first second.
  destruct (process_depends_on_clock_and_network w w eq_refl eq_refl)
    as [Hnow [Hnet _]].
  destruct (process_depends_on_clock_and_network w (snd (process_earthquake_data w))
              Hnow Hnet) as [_ [_ [Hsame Hfile]]].
  split; [exact Hsame|].
  assert (Hpath : todays_batch (snd (process_earthquake_data w)) = todays_batch w)
    by (unfold todays_batch; rewrite Hnow; reflexivity).
  destruct Hfile as [Hfile | [Hkept _]]; [|rewrite Hkept; reflexivity].
  destruct (String.eqb_spec path (todays_batch w)) as [->|Hother]; [exact Hfile|].
  apply String.eqb_neq in Hother.
  destruct (process_disk (snd (process_earthquake_data w))) as [Hkept | [_ [f Hwritten]]].
  - rewrite Hkept. reflexivity.
  - rewrite Hwritten, Hpath. unfold Csv.write. rewrite Hother.
    destruct (Csv.exists_ _ (todays_batch w)); [|reflexivity].
    unfold Csv.remove. rewrite Hother. reflexivity.
Qed.

(** ** A batch file under another path *)

Lemma of_batch_of_has_key (k : string) (r : Raw.row) :
  has_key k r = true -> of_batch k r.
Proof.
  unfold has_key, of_batch, Sql.eq_text. destruct (Raw.filename r) as [n|]; [|discriminate].
  cbn. destruct (String.eqb_spec n k) as [Heq|]; [|discriminate].
  intros _. rewrite Heq. reflexivity.
Qed.

(** X21.  The delete goes by the path of the file, the rows by what the
    file says: when the rows of the file carry another key than the path
    it is loaded from, the second load finds nothing of the first to delete
    and the rows are in the raw table twice. *)
Theorem batch_under_another_path_doubles
        (fs : Csv.filesystem) (k k' : string) (db : Db) (tz : Sql.TimeZone)
        (f : Csv.file) (rows : list Raw.row) :
  k' <> k ->
  fs k = Some f ->
  Csv.copy_header f = Ok rows ->
  Forall (of_batch k') rows ->
  let once := fst (LoadCsv.run fs k db tz []) in
  let twice := fst (LoadCsv.run fs k once tz []) in
  earthquake twice = (earthquake once ++ rows)%list
  /\ count_key k' (earthquake twice)
     = (count_key k' (earthquake db) + 2 * List.length rows)%nat.
Proof.
  intros Hne Hf Hrows Hkey once twice. subst once twice.
  rewrite (load_run_reliable fs k db tz f rows Hf Hrows). cbn [fst].
  rewrite (load_run_reliable fs k _ tz f rows Hf Hrows). cbn [fst].
  unfold with_batch. cbn [earthquake].
  assert (Hother : Forall (fun r => other_key k r = true /\ has_key k r = false) rows).
  { apply Forall_forall. intros r Hr.
    exact (other_key_of_batch k' k r (proj1 (Forall_forall _ _) Hkey r Hr) Hne). }
  assert (Hkeep : filter (other_key k) rows = rows).
  { apply (filter_all (other_key k)).
    eapply Forall_impl; [|exact Hother]. intros r [H _]. exact H. }
  assert (Hhas : filter (has_key k') rows = rows).
  { apply (filter_all (has_key k')). apply Forall_forall. intros r Hr.
    apply has_key_of_filename. exact (proj1 (Forall_forall _ _) Hkey r Hr). }
  rewrite filter_app, filter_kept_again, Hkeep. split; [reflexivity|].
  unfold count_key. rewrite !filter_app, !length_app, Hhas.
  assert (Hold : filter (has_key k') (filter (other_key k) (earthquake db))
                 = filter (has_key k') (earthquake db)).
  { induction (earthquake db) as [|r l IH]; [reflexivity|]. cbn [filter].
    destruct (has_key k' r) eqn:Hr.
    - assert (Ho : other_key k r = true)
        by exact (proj1 (other_key_of_batch k' k r (of_batch_of_has_key k' r Hr) Hne)).
      rewrite Ho. cbn [filter]. rewrite Hr, IH. reflexivity.
    - destruct (other_key k r); cbn [filter]; rewrite ?Hr; exact IH. }
  rewrite Hold. lia.
Qed.

Lemma batch_under_another_path_doubles_witness :
  let disk := Csv.write Sample.no_files Sample.other Sample.batch_file in
  let once := fst (LoadCsv.run disk Sample.other Sample.db Sql.UTC []) in
  let twice := fst (LoadCsv.run disk Sample.other once Sql.UTC []) in
  earthquake twice = (earthquake once ++ Sample.example_town
                        :: Sample.raw 1700000360000 "Fiji region" Sample.key :: nil)%list
  /\ count_key Sample.key (earthquake twice) = (2 + 2 * 2)%nat.
Proof.
  refine (batch_under_another_path_doubles
            (Csv.write Sample.no_files Sample.other Sample.batch_file)
            Sample.other Sample.key Sample.db Sql.UTC Sample.batch_file _
            _ eq_refl eq_refl _).
  - discriminate.
  - repeat constructor.
Defined.
